(** * Rename: a shallow embedding of [src/App.tsx]

    The file renamer stages user-selected files, derives a new file name
    for each one from a naming rule, a codename and a date, lets the user
    edit names and dates by hand, and triggers staggered downloads.

    The embedding follows the component [App]: JavaScript strings are
    sequences of UTF-16 code units, the React state cells form one record,
    event handlers are functions on that record, and the two [useEffect]
    hooks are run by an explicit commit step after every handler. *)

From Stdlib Require Import ZArith NArith List Ascii String Bool Lia.
From stdpp Require Import base option list gmap.

Local Open Scope N_scope.

(** ** JavaScript strings *)

(** A JavaScript string is a finite sequence of 16-bit code units. *)
Abbreviation jsstring := (list N).

(** String literals of the source, written as Rocq strings. *)
Definition js (s : string) : jsstring :=
  map N_of_ascii (list_ascii_of_string s).
Arguments js _%_string.

(** ECMAScript [WhiteSpace] and [LineTerminator] code units: the ones
    [String.prototype.trim] removes. *)
Definition isWhiteSpace (c : N) : bool :=
  (c =? 0x9) || (c =? 0xA) || (c =? 0xB) || (c =? 0xC) || (c =? 0xD)
  || (c =? 0x20) || (c =? 0xA0) || (c =? 0x1680)
  || ((0x2000 <=? c) && (c <=? 0x200A))
  || (c =? 0x2028) || (c =? 0x2029) || (c =? 0x202F) || (c =? 0x205F)
  || (c =? 0x3000) || (c =? 0xFEFF).

Fixpoint trimStart (s : jsstring) : jsstring :=
  match s with
  | [] => []
  | c :: s' => if isWhiteSpace c then trimStart s' else s
  end.

Definition trimEnd (s : jsstring) : jsstring := rev (trimStart (rev s)).

(** [s.trim()] *)
Definition trim (s : jsstring) : jsstring := trimEnd (trimStart s).

(** U+002D [-] and U+002E [.] and U+005F [_]. *)
Definition hyphen : N := 0x2D.
Definition dot : N := 0x2E.
Definition underscore : N := 0x5F.

(** [s.replace(/-/g, '')]: every hyphen is removed. *)
Definition removeHyphens (s : jsstring) : jsstring :=
  filter (fun c => c <> hyphen) s.

(** [s.split(sep)] for a one-unit separator: always at least one part. *)
Fixpoint split (sep : N) (s : jsstring) : list jsstring :=
  match s with
  | [] => [[]]
  | c :: s' =>
      if c =? sep then [] :: split sep s'
      else match split sep s' with
           | p :: ps => (c :: p) :: ps
           | [] => [[c]]
           end
  end.

(** [parts.join(sep)] for a one-unit separator. *)
Fixpoint join (sep : N) (parts : list jsstring) : jsstring :=
  match parts with
  | [] => []
  | [p] => p
  | p :: ps => p ++ sep :: join sep ps
  end.

(** [parts.pop()]: the removed last element ([undefined] on an empty
    array) and the array that is left. *)
Definition pop (parts : list jsstring) : option jsstring * list jsstring :=
  (last parts, removelast parts).

(** A template literal prints [undefined] as the word. *)
Definition templateString (v : option jsstring) : jsstring :=
  match v with
  | Some s => s
  | None => js "undefined"
  end.

(** ** NamingEngine: the body of the renaming effect *)

Definition date_codename_name : jsstring := js "date_codename_name".
Definition date_name : jsstring := js "date_name".
Definition codename_date_name : jsstring := js "codename_date_name".
Definition name_date : jsstring := js "name_date".

(** The ids of [renameFormats], in the order of the table. *)
Definition renameFormats : list jsstring :=
  [date_codename_name; date_name; codename_date_name; name_date].

(** [const code = codename.trim() || 'CODENAME'] (the empty string is
    falsy). *)
Definition code (codename : jsstring) : jsstring :=
  match trim codename with
  | [] => js "CODENAME"
  | t => t
  end.

(** The [switch (format)] of the effect, lines 72 to 97: [code] is the
    value computed above, [dateForCalc] the date chosen for the entry and
    [name] the original file name. *)
Definition generatedName (format code dateForCalc name : jsstring) : jsstring :=
  let date := removeHyphens dateForCalc in
  if decide (format = date_codename_name) then
    date ++ underscore :: code ++ underscore :: name
  else if decide (format = date_name) then
    date ++ underscore :: name
  else if decide (format = codename_date_name) then
    code ++ underscore :: date ++ underscore :: name
  else if decide (format = name_date) then
    let parts := split dot name in
    if (1 <? length parts)%nat then
      let '(ext, parts') := pop parts in
      join dot parts' ++ underscore :: date ++ dot :: templateString ext
    else
      name ++ underscore :: date
  else
    date ++ underscore :: name.

(** The naming computation as the specification names it:
    rule, codename, date and original name give the new name. *)
Definition compute (rule codename date originalName : jsstring) : jsstring :=
  generatedName rule (code codename) date originalName.


Local Close Scope N_scope.

(** ** Dates: [new Date(ms).toISOString().split('T')[0]] *)

Local Open Scope Z_scope.

Definition msPerDay : Z := 86400000.

(** A time value is valid up to 100,000,000 days either side of the epoch;
    [toISOString] throws a [RangeError] on any other. *)
Definition validTime (t : Z) : bool := (- 8640000000000000 <=? t) && (t <=? 8640000000000000).

(** Year, month and day of the proleptic Gregorian calendar for a day
    number counted from 1970-01-01 (ECMAScript [YearFromTime],
    [MonthFromTime] and [DateFromTime], computed era by era). *)
Definition civilFromDays (day : Z) : Z * Z * Z :=
  let z := day + 719468 in
  let era := z / 146097 in
  let doe := z - era * 146097 in
  let yoe := (doe - doe / 1460 + doe / 36524 - doe / 146096) / 365 in
  let doy := doe - (365 * yoe + yoe / 4 - yoe / 100) in
  let mp := (5 * doy + 2) / 153 in
  let d := doy - (153 * mp + 2) / 5 + 1 in
  let m := if mp <? 10 then mp + 3 else mp - 9 in
  let y := yoe + era * 400 + (if m <=? 2 then 1 else 0) in
  (y, m, d).

(** The last [width] decimal digits of [n], zero padded. *)
Fixpoint padDigits (width : nat) (n : Z) : jsstring :=
  match width with
  | O => []
  | S w => padDigits w (n / 10) ++ [Z.to_N (48 + n mod 10)]
  end.

(** Years 0 to 9999 print with four digits, all others as a sign and six
    digits. *)
Definition isoYear (y : Z) : jsstring :=
  if (0 <=? y) && (y <=? 9999) then padDigits 4 y
  else (if y <? 0 then js "-" else js "+") ++ padDigits 6 (Z.abs y).

(** [new Date(t).toISOString()]: [None] stands for the [RangeError]. *)
Definition toISOString (t : Z) : option jsstring :=
  if validTime t then
    let '(y, m, d) := civilFromDays (t / msPerDay) in
    let ms := t mod msPerDay in
    Some (isoYear y ++ js "-" ++ padDigits 2 m ++ js "-" ++ padDigits 2 d
          ++ js "T" ++ padDigits 2 (ms / 3600000)
          ++ js ":" ++ padDigits 2 (ms / 60000 mod 60)
          ++ js ":" ++ padDigits 2 (ms / 1000 mod 60)
          ++ js "." ++ padDigits 3 (ms mod 1000) ++ js "Z")
  else None.

(** [new Date(t).toISOString().split('T')[0]]; [split] never returns an
    empty array, so [None] only ever stands for the [RangeError]. *)
Definition toISODate (t : Z) : option jsstring :=
  s ← toISOString t; head (split 0x54%N s).

Local Close Scope Z_scope.

(** ** Files, entries and the browser's object URLs *)

(** What the handlers read of a [File]: its name, its MIME type and its
    last-modified time in milliseconds since the epoch. *)
Module File.
Record t : Type := mk {
  name : jsstring;
  type : jsstring;
  lastModified : Z
}.
End File.

(** An object URL, [blob:...]: the browser makes a fresh one at every
    [URL.createObjectURL]; they are numbered in order of creation. *)
Definition url : Type := nat.

(** [interface RenamedFile] *)
Record RenamedFile : Type := mkRenamedFile {
  originalFile : File.t;
  newName : jsstring;
  dateString : jsstring;
  previewUrl : option url
}.

(** [{ ...rf, newName }] and [{ ...rf, dateString }] *)
Definition withNewName (rf : RenamedFile) (newName' : jsstring) : RenamedFile :=
  {| originalFile := originalFile rf; newName := newName';
     dateString := dateString rf; previewUrl := previewUrl rf |}.

Definition withDateString (rf : RenamedFile) (dateString' : jsstring) : RenamedFile :=
  {| originalFile := originalFile rf; newName := newName rf;
     dateString := dateString'; previewUrl := previewUrl rf |}.

(** The part of the browser the component acts on: how many object URLs
    were created so far, and which of them were revoked. *)
Record Browser : Type := mkBrowser {
  createdUrls : nat;
  revokedUrls : gset url
}.

Definition createObjectURL (b : Browser) : url * Browser :=
  (createdUrls b,
   {| createdUrls := S (createdUrls b); revokedUrls := revokedUrls b |}).

Definition revokeObjectURL (u : url) (b : Browser) : Browser :=
  {| createdUrls := createdUrls b; revokedUrls := {[u]} ∪ revokedUrls b |}.

(** [s.startsWith(prefix)] *)
Fixpoint startsWith (s prefix : jsstring) : bool :=
  match prefix, s with
  | [], _ => true
  | _ :: _, [] => false
  | p :: prefix', c :: s' => (c =? p)%N && startsWith s' prefix'
  end.

(** ** The state cells of [App] *)

(** The cells the handlers and effects below read or write; the cell
    [isDraggingOverList] only styles the drop zone and is left out. *)

Module App.
Record state : Type := mk {
  renamedFiles : list RenamedFile;
  codename : jsstring;
  format : jsstring;
  dateString : jsstring;
  useSameDateForAll : bool
}.

Definition setRenamedFiles (v : list RenamedFile) (s : state) : state :=
  mk v (codename s) (format s) (dateString s) (useSameDateForAll s).
Definition setCodename (v : jsstring) (s : state) : state :=
  mk (renamedFiles s) v (format s) (dateString s) (useSameDateForAll s).
Definition setFormat (v : jsstring) (s : state) : state :=
  mk (renamedFiles s) (codename s) v (dateString s) (useSameDateForAll s).
Definition setDateString (v : jsstring) (s : state) : state :=
  mk (renamedFiles s) (codename s) (format s) v (useSameDateForAll s).
Definition setUseSameDateForAll (v : bool) (s : state) : state :=
  mk (renamedFiles s) (codename s) (format s) (dateString s) v.
End App.

(** The first render: [today] is [new Date().toISOString().split('T')[0]]
    at that time. *)
Definition initialState (today : jsstring) : App.state :=
  App.mk [] (js "PROJECT") date_codename_name today true.

Definition initialBrowser : Browser := mkBrowser 0 ∅.

(** ** The effects *)

(** The clean-up of the first effect, over the array it closed on:
    every preview URL of that array is revoked. *)
Definition cleanupObjectURLs (renamedFiles : list RenamedFile) (b : Browser) : Browser :=
  foldl (fun b rf =>
           match previewUrl rf with
           | Some u => revokeObjectURL u b
           | None => b
           end) b renamedFiles.

(** The callback of [currentFiles.map] in the renaming effect. *)
Definition renameOne (s : App.state) (file : RenamedFile) : RenamedFile :=
  let dateForCalc :=
    if App.useSameDateForAll s then App.dateString s else dateString file in
  withNewName file
    (generatedName (App.format s) (code (App.codename s)) dateForCalc
       (File.name (originalFile file))).

(** The renaming effect, lines 64 to 101: nothing on an empty collection,
    else every entry gets the generated name. *)
Definition renameEffect (s : App.state) : App.state :=
  if (length (App.renamedFiles s) =? 0)%nat then s
  else App.setRenamedFiles (map (renameOne s) (App.renamedFiles s)) s.

(** The dependency list of the renaming effect, line 102. *)
Definition renameDeps (s : App.state)
  : jsstring * jsstring * jsstring * bool * nat :=
  (App.format s, App.codename s, App.dateString s, App.useSameDateForAll s,
   length (App.renamedFiles s)).

(** ** The handlers *)

(** The callback of [newFiles.map] in [handleFiles], threading the browser
    through the calls of [URL.createObjectURL]; [None] when a timestamp
    makes [toISOString] throw (the browser at that moment is
    [browserAtThrow]). *)
Fixpoint filesToAdd (useSameDateForAll : bool) (currentGlobalDate : jsstring)
    (newFiles : list File.t) (b : Browser) : option (list RenamedFile * Browser) :=
  match newFiles with
  | [] => Some ([], b)
  | file :: rest =>
      individualFileDate ← toISODate (File.lastModified file);
      let '(preview, b1) :=
        if startsWith (File.type file) (js "image/")
        then let '(u, b1) := createObjectURL b in (Some u, b1)
        else (None, b) in
      '(added, b2) ← filesToAdd useSameDateForAll currentGlobalDate rest b1;
      Some ({| originalFile := file;
               newName := [];
               previewUrl := preview;
               dateString := if useSameDateForAll then currentGlobalDate
                             else individualFileDate |} :: added, b2)
  end.

(** What a handler leaves behind: the next state, the browser, and whether
    it called [setRenamedFiles] (every call passes a new array). *)
Definition handled : Type := App.state * Browser * bool.

(** [handleFiles] when it returns: [selectedFiles] is [None] for [null];
    the result is [None] when a [RangeError] escapes the handler, and
    what the handler has done by then is [handleFilesThrown]. *)
Definition handleFiles (selectedFiles : option (list File.t))
    (s : App.state) (b : Browser) : option handled :=
  match selectedFiles with
  | None | Some [] => Some (s, b, false)
  | Some ((firstFile :: _) as newFiles) =>
      '(currentGlobalDate, s1) ←
        (if (length (App.renamedFiles s) =? 0)%nat then
           d ← toISODate (File.lastModified firstFile);
           Some (d, App.setDateString d s)
         else Some (App.dateString s, s));
      '(added, b') ← filesToAdd (App.useSameDateForAll s) currentGlobalDate newFiles b;
      Some (App.setRenamedFiles (App.renamedFiles s1 ++ added) s1, b', true)
  end.

(** [updated[index] = { ...updated[index], ... }] on a copy of the array.
    The list of entries calls the handlers with the index of a row; for an
    index past the end JavaScript would extend the array by an object
    that has none of the other fields, which no [RenamedFile] describes:
    [None]. *)
Definition updateAt (index : nat) (f : RenamedFile → RenamedFile)
    (prev : list RenamedFile) : option (list RenamedFile) :=
  rf ← prev !! index; Some (<[index := f rf]> prev).

Definition handleIndividualNameChange (index : nat) (newName : jsstring)
    (s : App.state) (b : Browser) : option handled :=
  updated ← updateAt index (fun rf => withNewName rf newName) (App.renamedFiles s);
  Some (App.setRenamedFiles updated s, b, true).

Definition handleIndividualDateChange (index : nat) (newDate : jsstring)
    (s : App.state) (b : Browser) : option handled :=
  updated ← updateAt index (fun rf => withDateString rf newDate) (App.renamedFiles s);
  Some (App.setRenamedFiles updated s, b, true).

(** The callback of [prev.map] in [handleDateToggleChange]. *)
Definition toggledDate (isChecked : bool) (globalDate : jsstring)
    (rf : RenamedFile) : option RenamedFile :=
  if isChecked then Some (withDateString rf globalDate)
  else d ← toISODate (File.lastModified (originalFile rf));
       Some (withDateString rf d).

Definition handleDateToggleChange (isChecked : bool)
    (s : App.state) (b : Browser) : option handled :=
  updated ← mapM (toggledDate isChecked (App.dateString s)) (App.renamedFiles s);
  Some (App.setRenamedFiles updated (App.setUseSameDateForAll isChecked s), b, true).

(** [handleClear]; resetting the file input is outside the state. *)
Definition handleClear (s : App.state) (b : Browser) : option handled :=
  Some (App.setRenamedFiles [] s, b, true).

(** What one timer of [handleSaveAll] does when it fires: a blob of the
    file with the file's type is saved under the name [download]. *)
Record Download : Type := mkDownload {
  blobPart : File.t;
  blobType : jsstring;
  download : jsstring
}.

(** The body of the [forEach] callback of [handleSaveAll] from position
    [index] on: the timers set, as delay in milliseconds and action.
    A [File] is an object, hence truthy; the empty string is falsy. *)
Fixpoint saveAllFrom (index : nat) (renamedFiles : list RenamedFile)
    : list (nat * Download) :=
  match renamedFiles with
  | [] => []
  | renamedFile :: rest =>
      match trim (newName renamedFile) with
      | [] => saveAllFrom (S index) rest
      | trimmed =>
          (index * 300,
           {| blobPart := originalFile renamedFile;
              blobType := File.type (originalFile renamedFile);
              download := trimmed |}) :: saveAllFrom (S index) rest
      end
  end.

Definition handleSaveAll (renamedFiles : list RenamedFile) : list (nat * Download) :=
  saveAllFrom 0 renamedFiles.

(** The callback of a timer of [handleSaveAll]: a transient object URL is
    created for the blob, the anchor is clicked, and the URL is revoked at
    once. *)
Definition fireDownload (b : Browser) : Browser :=
  let '(u, b1) := createObjectURL b in revokeObjectURL u b1.

(** ** A session: handlers and effects in sequence *)

(** What the user interface sends to the component. *)
Inductive event : Type :=
| FilesSelected (selectedFiles : option (list File.t))
| IndividualNameChanged (index : nat) (newName : jsstring)
| IndividualDateChanged (index : nat) (newDate : jsstring)
| DateToggleChanged (isChecked : bool)
| DateStringChanged (value : jsstring)
| FormatChanged (value : jsstring)
| CodenameChanged (value : jsstring)
| SaveAllClicked
| ClearClicked
| TimerFired (k : nat).

(** The component between two events: its state cells, the browser's
    object URLs, the timers not yet fired and the files saved so far. *)
Record Session : Type := mkSession {
  state : App.state;
  browser : Browser;
  timers : list (nat * Download);
  saved : list Download
}.

Definition initialSession (today : jsstring) : Session :=
  mkSession (initialState today) initialBrowser [] [].

(** The handler an event runs. *)
Definition handle (e : event) (s : App.state) (b : Browser) : option handled :=
  match e with
  | FilesSelected selectedFiles => handleFiles selectedFiles s b
  | IndividualNameChanged index newName => handleIndividualNameChange index newName s b
  | IndividualDateChanged index newDate => handleIndividualDateChange index newDate s b
  | DateToggleChanged isChecked => handleDateToggleChange isChecked s b
  | DateStringChanged value => Some (App.setDateString value s, b, false)
  | FormatChanged value => Some (App.setFormat value s, b, false)
  | CodenameChanged value => Some (App.setCodename value s, b, false)
  | SaveAllClicked => Some (s, b, false)
  | ClearClicked => handleClear s b
  | TimerFired _ => Some (s, b, false)
  end.

(** The render that follows a handler, with its effects.  [prev] is the
    state of the last render and [next] the state the handler left.

    - If the array [renamedFiles] was replaced, the clean-up of the first
      effect runs; it closed on the array of the last render.
    - If a dependency of the renaming effect changed, the effect runs; on
      a collection that is not empty it replaces the array again, so one
      more render follows, in which the clean-up runs on the array of
      [next], and no dependency changes any more. *)
Definition commit (prev : App.state) (h : handled) : App.state * Browser :=
  let '(next, b, replaced) := h in
  let b1 := if replaced then cleanupObjectURLs (App.renamedFiles prev) b else b in
  if decide (renameDeps prev = renameDeps next) then (next, b1)
  else if (length (App.renamedFiles next) =? 0)%nat then (next, b1)
  else (renameEffect next, cleanupObjectURLs (App.renamedFiles next) b1).

(** One event, from quiescent session to quiescent session; [None] when
    the handler does not return a state ([stepOrThrow] goes on after a
    selection that threw). *)
Definition step (e : event) (w : Session) : option Session :=
  h ← handle e (state w) (browser w);
  let '(s', b') := commit (state w) h in
  match e with
  | SaveAllClicked =>
      Some (mkSession s' b' (timers w ++ handleSaveAll (App.renamedFiles (state w))) (saved w))
  | TimerFired k =>
      match timers w !! k with
      | Some (_, d) => Some (mkSession s' (fireDownload b') (delete k (timers w)) (saved w ++ [d]))
      | None => Some (mkSession s' b' (timers w) (saved w))
      end
  | _ => Some (mkSession s' b' (timers w) (saved w))
  end.

(** A run of events. *)
Fixpoint run (es : list event) (w : Session) : option Session :=
  match es with
  | [] => Some w
  | e :: es' => w' ← step e w; run es' w'
  end.

(** Unmounting the component runs the clean-up on the current array. *)
Definition unmount (w : Session) : Browser :=
  cleanupObjectURLs (App.renamedFiles (state w)) (browser w).

(** ** Vocabulary of the specification *)

(** A decimal digit, U+0030 to U+0039. *)
Definition isDigit (c : N) : Prop := (0x30 <= c <= 0x39)%N.

(** [date] has the form YYYY-MM-DD with the given digit groups. *)
Definition dateForm (date yyyy mm dd : jsstring) : Prop :=
  date = yyyy ++ hyphen :: mm ++ hyphen :: dd
  /\ length yyyy = 4%nat /\ length mm = 2%nat /\ length dd = 2%nat
  /\ Forall isDigit (yyyy ++ mm ++ dd).

(** The templates of the three rules, as the specification writes them:
    the pieces joined by underscores. *)
Definition template_date_codename_name (date codename originalName : jsstring) : jsstring :=
  date ++ js "_" ++ codename ++ js "_" ++ originalName.
Definition template_date_name (date originalName : jsstring) : jsstring :=
  date ++ js "_" ++ originalName.
Definition template_codename_date_name (date codename originalName : jsstring) : jsstring :=
  codename ++ js "_" ++ date ++ js "_" ++ originalName.

(** The output of the rule [name_date] when the name is split at its last
    dot: stem, underscore, compact date, dot, extension. *)
Definition splitAtLastDot (originalName date out : jsstring) : Prop :=
  exists stem ext,
    originalName = stem ++ dot :: ext /\ (dot ∉ ext)
    /\ out = stem ++ js "_" ++ removeHyphens date ++ js "." ++ ext.

(** The rule [name_date] as the specification words it: the name is split
    at its last dot only if it has a dot that is not its sole character,
    such a name gives stem, date and extension, and a name without a dot
    gives name and date. *)
Definition name_date_as_specified (codename date originalName : jsstring) : Prop :=
  let out := compute name_date codename date originalName in
  (splitAtLastDot originalName date out -> dot ∈ originalName /\ originalName <> js ".")
  /\ (dot ∈ originalName /\ originalName <> js "." -> splitAtLastDot originalName date out)
  /\ (dot ∉ originalName -> out = originalName ++ js "_" ++ removeHyphens date).

(** An entry is exported when its trimmed name is not empty; the download
    then carries the file, its type and the trimmed name. *)
Definition eligible (rf : RenamedFile) : Prop := trim (newName rf) <> [].

Definition downloadOf (rf : RenamedFile) : Download :=
  {| blobPart := originalFile rf;
     blobType := File.type (originalFile rf);
     download := trim (newName rf) |}.

(** The stagger of the export, in milliseconds. *)
Definition FIXED_INTERVAL : nat := 300.

(** A file whose time stamp [toISOString] accepts. *)
Definition validFile (f : File.t) : Prop := validTime (File.lastModified f) = true.

(** The sessions the user interface can produce from the first render
    through handlers that all returned ([reachableOrThrow] adds the
    sessions that follow a selection that threw). *)
Definition reachable (w : Session) : Prop :=
  exists today es, run es (initialSession today) = Some w.

(** The preview URLs the entries of a collection hold. *)
Definition previews (l : list RenamedFile) : list url := omap previewUrl l.

(** Two collections with the same files and preview URLs, entry by
    entry. *)
Definition sameFiles (l l' : list RenamedFile) : Prop :=
  map originalFile l' = map originalFile l
  /\ map previewUrl l' = map previewUrl l.

(** Samples for the worked examples: an image and a text file, and the
    session after both were selected on the first render. *)
Definition photo : File.t := File.mk (js "photo.png") (js "image/png") 1709596800000.
Definition notes : File.t := File.mk (js "notes.txt") (js "text/plain") 0.

Definition sampleSession : Session :=
  default (initialSession (js "2026-11-03"))
    (run [FilesSelected (Some [photo; notes])] (initialSession (js "2026-11-03"))).

(** No object URL is lost: every URL created so far was revoked or is
    the preview of an entry of the collection. *)
Definition noLostUrl (w : Session) : Prop :=
  forall u, u < createdUrls (browser w) ->
    u ∈ revokedUrls (browser w) \/ u ∈ previews (App.renamedFiles (state w)).

(** No entry of the collection holds a preview URL that was revoked. *)
Definition noRevokedPreview (w : Session) : Prop :=
  forall u, u ∈ previews (App.renamedFiles (state w)) -> u ∉ revokedUrls (browser w).

(** ** Further vocabulary *)

(** [s.includes(sub)] *)
Fixpoint includes (s sub : jsstring) : bool :=
  startsWith s sub
  || match s with
     | [] => false
     | _ :: s' => includes s' sub
     end.

(** The collection is a fixed point of the renaming sweep: every entry
    carries the name the rule gives it. *)
Definition synced (s : App.state) : Prop :=
  map (renameOne s) (App.renamedFiles s) = App.renamedFiles s.

(** In per-file mode every entry carries the date of its own file. *)
Definition perFileDates (s : App.state) : Prop :=
  App.useSameDateForAll s = false ->
  Forall (fun rf => toISODate (File.lastModified (originalFile rf)) = Some (dateString rf))
         (App.renamedFiles s).

(** The two events that edit one entry by hand. *)
Definition isEntryEdit (e : event) : Prop :=
  match e with
  | IndividualNameChanged _ _ | IndividualDateChanged _ _ => True
  | _ => False
  end.

(** What an event needs to go through: selected files with time stamps
    that [toISOString] accepts, and an existing row for an edit. *)
Definition accepted (e : event) (s : App.state) : Prop :=
  match e with
  | FilesSelected (Some files) => Forall validFile files
  | IndividualNameChanged index _ | IndividualDateChanged index _ =>
      index < length (App.renamedFiles s)
  | _ => True
  end.

(** The files of the collection after an event, given those before. *)
Definition filesAfter (e : event) (files : list File.t) : list File.t :=
  match e with
  | FilesSelected (Some selected) => files ++ selected
  | ClearClicked => []
  | _ => files
  end.

(** The events after which the array [renamedFiles] is a new one: the
    handlers that call [setRenamedFiles], and a change of rule, codename
    or global date on a collection that is not empty, which the renaming
    effect answers with a new array. *)
Definition replacesArray (e : event) (s : App.state) : Prop :=
  match e with
  | FilesSelected (Some (_ :: _)) => True
  | IndividualNameChanged _ _ | IndividualDateChanged _ _ => True
  | DateToggleChanged _ => True
  | ClearClicked => True
  | FormatChanged v => v <> App.format s /\ App.renamedFiles s <> []
  | CodenameChanged v => v <> App.codename s /\ App.renamedFiles s <> []
  | DateStringChanged v => v <> App.dateString s /\ App.renamedFiles s <> []
  | _ => False
  end.

(** ** A selection that throws *)

(** The browser at the moment the callback of [newFiles.map] throws: the
    object URLs of the image files that come before the file whose time
    stamp [toISOString] rejects have been created by then.  [None] when no
    file makes it throw. *)
Fixpoint browserAtThrow (newFiles : list File.t) (b : Browser) : option Browser :=
  match newFiles with
  | [] => None
  | file :: rest =>
      match toISODate (File.lastModified file) with
      | None => Some b
      | Some _ =>
          browserAtThrow rest
            (if startsWith (File.type file) (js "image/")
             then (createObjectURL b).2 else b)
      end
  end.

(** [handleFiles] when a [RangeError] escapes it: what it leaves behind.
    The [setDateString] called before the throw is applied by React, the
    object URLs created before the throw exist, [setRenamedFiles] was not
    reached, and the component stays mounted.  [None] when the handler
    returns. *)
Definition handleFilesThrown (selectedFiles : option (list File.t))
    (s : App.state) (b : Browser) : option handled :=
  match selectedFiles with
  | None | Some [] => None
  | Some ((firstFile :: _) as newFiles) =>
      if (length (App.renamedFiles s) =? 0)%nat then
        match toISODate (File.lastModified firstFile) with
        | None => Some (s, b, false)
        | Some d =>
            b' ← browserAtThrow newFiles b;
            Some (App.setDateString d s, b', false)
        end
      else
        b' ← browserAtThrow newFiles b;
        Some (s, b', false)
  end.

(** One event, the throwing selection included: when [handleFiles] throws
    the component goes on from what the handler left.  [None] is left for
    an edit of a row that does not exist, and for a toggle whose updater
    throws during the render. *)
Definition stepOrThrow (e : event) (w : Session) : option Session :=
  match step e w with
  | Some w' => Some w'
  | None =>
      match e with
      | FilesSelected selectedFiles =>
          h ← handleFilesThrown selectedFiles (state w) (browser w);
          let '(s', b') := commit (state w) h in
          Some (mkSession s' b' (timers w) (saved w))
      | _ => None
      end
  end.

Fixpoint runOrThrow (es : list event) (w : Session) : option Session :=
  match es with
  | [] => Some w
  | e :: es' => w' ← stepOrThrow e w; runOrThrow es' w'
  end.

(** The sessions the component can be in, failed selections included. *)
Definition reachableOrThrow (w : Session) : Prop :=
  exists today es, runOrThrow es (initialSession today) = Some w.

(** An object URL that was created, is not revoked, and is the preview of
    no entry. *)
Definition lostUrl (u : url) (w : Session) : Prop :=
  u < createdUrls (browser w)
  /\ (u ∉ revokedUrls (browser w))
  /\ (u ∉ previews (App.renamedFiles (state w))).

(** The URLs the browser knows are well formed: every preview held by an
    entry and every revoked URL was created before. *)
Definition urlsWellFormed (w : Session) : Prop :=
  Forall (fun u => u < createdUrls (browser w)) (previews (App.renamedFiles (state w)))
  /\ forall u, u ∈ revokedUrls (browser w) -> u < createdUrls (browser w).

(** A file whose time stamp is past the range of [Date]. *)
Definition farFile : File.t :=
  File.mk (js "far.txt") (js "text/plain") 8640000000000001.


(** * Properties *)

(** Closed decidable facts, such as membership in a literal, by
    evaluation. *)
Ltac by_evaluation := apply (bool_decide_unpack _); vm_compute; exact I.

(** ** Strings *)

Lemma split_nonempty sep s : split sep s <> [].
Proof.
  destruct s as [|c s]; simpl; [done|].
  destruct (c =? sep)%N; [done|]. by destruct (split sep s).
Qed.

Lemma split_no_sep sep s : sep ∉ s -> split sep s = [s].
Proof.
  induction s as [|c s IH]; intros Hs; simpl; [done|].
  apply not_elem_of_cons in Hs as [Hc Hs].
  destruct (N.eqb_spec c sep) as [->|_]; [done|]. by rewrite IH.
Qed.

Lemma split_app_sep sep stem ext :
  sep ∉ ext -> split sep (stem ++ sep :: ext) = split sep stem ++ [ext].
Proof.
  intros Hext. induction stem as [|c stem IH]; simpl.
  - rewrite N.eqb_refl. by rewrite split_no_sep.
  - destruct (N.eqb_spec c sep) as [->|_]; [by rewrite IH|].
    rewrite IH. pose proof (split_nonempty sep stem).
    by destruct (split sep stem).
Qed.

Lemma join_split sep s : join sep (split sep s) = s.
Proof.
  induction s as [|c s IH]; simpl; [done|].
  destruct (N.eqb_spec c sep) as [->|_].
  - pose proof (split_nonempty sep s).
    simpl. destruct (split sep s) eqn:E; [done|]. by rewrite IH.
  - pose proof (split_nonempty sep s).
    destruct (split sep s) as [|p ps] eqn:E; [done|].
    simpl in *. destruct ps; simpl in *; by rewrite <- IH.
Qed.

Lemma last_dot_exists (sep : N) (s : jsstring) :
  sep ∈ s -> exists stem ext, s = stem ++ sep :: ext /\ sep ∉ ext.
Proof.
  induction s as [|c s IH]; intros Hin; [by apply elem_of_nil in Hin|].
  destruct (decide (sep ∈ s)) as [Hs|Hs].
  - destruct (IH Hs) as (stem & ext & -> & Hext). by exists (c :: stem), ext.
  - apply elem_of_cons in Hin as [->|Hin]; [|done]. by exists [], s.
Qed.

Lemma removeHyphens_app s t :
  removeHyphens (s ++ t) = removeHyphens s ++ removeHyphens t.
Proof. apply filter_app. Qed.

Lemma removeHyphens_id s : hyphen ∉ s -> removeHyphens s = s.
Proof.
  induction s as [|c s IH]; intros Hs; [done|].
  apply not_elem_of_cons in Hs as [Hc Hs]. unfold removeHyphens in *.
  rewrite filter_cons_True by done. by rewrite IH.
Qed.

(** ** NamingEngine *)


Lemma digits_no_hyphen s : Forall isDigit s -> hyphen ∉ s.
Proof.
  intros H Hin. rewrite Forall_forall in H. specialize (H _ Hin).
  unfold isDigit, hyphen in H. lia.
Qed.

Lemma removeHyphens_dateForm date yyyy mm dd :
  dateForm date yyyy mm dd -> removeHyphens date = yyyy ++ mm ++ dd.
Proof.
  intros (-> & _ & _ & _ & Hd).
  apply Forall_app in Hd as [Hy Hd]. apply Forall_app in Hd as [Hm Hd].
  change (yyyy ++ hyphen :: mm ++ hyphen :: dd)
    with (yyyy ++ [hyphen] ++ mm ++ [hyphen] ++ dd).
  rewrite !removeHyphens_app.
  rewrite (removeHyphens_id yyyy), (removeHyphens_id mm), (removeHyphens_id dd)
    by (by apply digits_no_hyphen).
  reflexivity.
Qed.

Lemma code_nonblank codename : trim codename <> [] -> code codename = trim codename.
Proof. unfold code. by destruct (trim codename). Qed.

Lemma code_blank codename : trim codename = [] -> code codename = js "CODENAME".
Proof. unfold code. by intros ->. Qed.


(** C1 as stated fails: the codename [" DRAFT "] has a non-empty trim, and
    the computed name is not the template filled with that codename. *)
Lemma C1_codename_not_verbatim :
  trim (js " DRAFT ") <> []
  /\ compute date_codename_name (js " DRAFT ") (js "2024-03-05") (js "photo.png")
     <> template_date_codename_name (js "20240305") (js " DRAFT ") (js "photo.png").
Proof. split; vm_compute; discriminate. Qed.

(** C1, amended: for the three rules, a codename whose trim is not empty
    and any date and original name, the computed name is the template
    filled with the date without its hyphens, the TRIMMED codename and the
    original name; a date of the form YYYY-MM-DD loses its hyphens to the
    eight digits YYYYMMDD; and the worked example of the specification
    holds. *)
Theorem C1_compute_templates (codename date originalName : jsstring) :
  trim codename <> [] ->
  compute date_codename_name codename date originalName
    = template_date_codename_name (removeHyphens date) (trim codename) originalName
  /\ compute date_name codename date originalName
    = template_date_name (removeHyphens date) originalName
  /\ compute codename_date_name codename date originalName
    = template_codename_date_name (removeHyphens date) (trim codename) originalName
  /\ (forall yyyy mm dd, dateForm date yyyy mm dd -> removeHyphens date = yyyy ++ mm ++ dd)
  /\ compute date_codename_name (js "DRAFT") (js "2024-03-05") (js "photo.png")
     = js "20240305_DRAFT_photo.png".
Proof.
  intros Hc. unfold compute. rewrite (code_nonblank _ Hc).
  repeat split.
  - apply removeHyphens_dateForm.
Qed.

Lemma C1_compute_templates_witness :
  trim (js " v2 ") <> []
  /\ compute codename_date_name (js " v2 ") (js "2024-03-05") (js "a.txt")
     = js "v2_20240305_a.txt".
Proof.
  split; [vm_compute; discriminate|].
  assert (H : trim (js " v2 ") <> []) by (vm_compute; discriminate).
  destruct (C1_compute_templates (js " v2 ") (js "2024-03-05") (js "a.txt") H)
    as (_ & _ & -> & _). vm_compute. reflexivity.
Defined.

Lemma compute_name_date_split codename date stem ext :
  dot ∉ ext ->
  compute name_date codename date (stem ++ dot :: ext)
  = stem ++ js "_" ++ removeHyphens date ++ js "." ++ ext.
Proof.
  intros Hext. unfold compute, generatedName.
  rewrite !decide_False by (vm_compute; discriminate).
  rewrite decide_True by reflexivity.
  rewrite split_app_sep by done. unfold pop.
  rewrite length_app, last_snoc, removelast_last, join_split.
  simpl length. replace (1 <? length (split dot stem) + 1)%nat with true.
  - reflexivity.
  - symmetry. apply Nat.ltb_lt.
    pose proof (split_nonempty dot stem). destruct (split dot stem); simpl; [done|lia].
Qed.

Lemma compute_name_date_no_dot codename date originalName :
  dot ∉ originalName ->
  compute name_date codename date originalName
  = originalName ++ js "_" ++ removeHyphens date.
Proof.
  intros Hn. unfold compute, generatedName.
  rewrite !decide_False by (vm_compute; discriminate).
  rewrite decide_True by reflexivity.
  by rewrite split_no_sep.
Qed.

(** C2 as stated fails: on the name ["."] the code does split at the dot,
    with an empty stem and an empty extension, although the dot is the
    sole character of the name. *)
Lemma C2_lone_dot_is_split :
  ~ name_date_as_specified (js "X") (js "2024-01-02") (js ".").
Proof.
  intros [Honly _]. destruct Honly as [_ Hne]; [|by apply Hne].
  exists [], []. repeat split. apply not_elem_of_nil.
Qed.

(** C2, amended: under the rule [name_date] the name is split at its LAST
    dot whenever it has a dot at all (also when the dot is its sole
    character): the result is stem, underscore, compact date, dot and
    extension, the extension being what follows the last dot; a name
    without a dot gives name, underscore and compact date, nothing
    appended.  Every name falls under one of the two cases. *)
Theorem C2_name_date (codename date originalName : jsstring) :
  let out := compute name_date codename date originalName in
  (forall stem ext,
      originalName = stem ++ dot :: ext -> dot ∉ ext ->
      out = stem ++ js "_" ++ removeHyphens date ++ js "." ++ ext)
  /\ (dot ∈ originalName <-> splitAtLastDot originalName date out)
  /\ (dot ∉ originalName -> out = originalName ++ js "_" ++ removeHyphens date)
  /\ compute name_date codename (js "2024-01-02") (js "report.final.pdf")
     = js "report.final_20240102.pdf"
  /\ compute name_date codename (js "2024-01-02") (js "README")
     = js "README_20240102".
Proof.
  cbv zeta. split; [|split; [|split; [|split]]].
  - intros stem ext -> Hext. by apply compute_name_date_split.
  - split.
    + intros Hin. destruct (last_dot_exists _ _ Hin) as (stem & ext & -> & Hext).
      exists stem, ext. split; [done|]. split; [done|].
      by apply compute_name_date_split.
    + intros (stem & ext & -> & _ & _). set_solver.
  - apply compute_name_date_no_dot.
  - change (js "report.final.pdf") with (js "report.final" ++ dot :: js "pdf").
    rewrite compute_name_date_split; [reflexivity|].
    by_evaluation.
  - rewrite compute_name_date_no_dot; [reflexivity|]. by_evaluation.
Qed.

Lemma C2_name_date_witness :
  (dot ∉ js "gz")
  /\ compute name_date (js "X") (js "2024-01-02") (js "a.tar.gz") = js "a.tar_20240102.gz".
Proof.
  assert (H : dot ∉ js "gz") by by_evaluation.
  split; [exact H|].
  exact (proj1 (C2_name_date (js "X") (js "2024-01-02") (js "a.tar.gz"))
           (js "a.tar") (js "gz") eq_refl H).
Defined.

(** C7: the naming computation is a total function; a codename whose
    trim is empty is replaced by the literal CODENAME in every rule, and a
    rule id outside the four known ones gives the template of [date_name],
    compact date, underscore and original name. *)
Theorem C7_silent_fallbacks (rule codename date originalName : jsstring) :
  (trim codename = [] ->
     compute rule codename date originalName
       = generatedName rule (js "CODENAME") date originalName
     /\ compute date_codename_name codename date originalName
       = template_date_codename_name (removeHyphens date) (js "CODENAME") originalName
     /\ compute codename_date_name codename date originalName
       = template_codename_date_name (removeHyphens date) (js "CODENAME") originalName)
  /\ (rule ∉ renameFormats ->
     compute rule codename date originalName
       = template_date_name (removeHyphens date) originalName).
Proof.
  split.
  - intros Hc. unfold compute. rewrite (code_blank _ Hc). repeat split.
  - intros Hr. unfold renameFormats in Hr.
    unfold compute, generatedName.
    repeat case_decide; try reflexivity; subst; set_solver.
Qed.

Lemma C7_silent_fallbacks_witness :
  compute codename_date_name (js "   ") (js "2024-03-05") (js "a.txt")
    = js "CODENAME_20240305_a.txt"
  /\ compute (js "no_such_rule") (js "X") (js "2024-03-05") (js "a.txt")
    = js "20240305_a.txt".
Proof.
  split.
  - assert (H : trim (js "   ") = []) by reflexivity.
    destruct (proj1 (C7_silent_fallbacks date_name (js "   ") (js "2024-03-05") (js "a.txt")) H)
      as (_ & _ & ->). reflexivity.
  - assert (H : js "no_such_rule" ∉ renameFormats) by by_evaluation.
    rewrite (proj2 (C7_silent_fallbacks (js "no_such_rule") (js "X") (js "2024-03-05") (js "a.txt")) H).
    reflexivity.
Defined.

(** ** The renaming sweep *)

Lemma renameOne_idem s s' rf :
  App.format s' = App.format s -> App.codename s' = App.codename s ->
  App.dateString s' = App.dateString s ->
  App.useSameDateForAll s' = App.useSameDateForAll s ->
  renameOne s' (renameOne s rf) = renameOne s rf.
Proof.
  intros Hf Hc Hd Hu. unfold renameOne, withNewName. simpl.
  by rewrite Hf, Hc, Hd, Hu.
Qed.

(** C9: the renaming sweep is idempotent: run a second time on the state
    it produced, with rule, codename, global date, toggle and entry dates
    as they are, it produces the same state, and so the same name for
    every entry. *)
Theorem C9_recompute_idempotent (s : App.state) :
  renameEffect (renameEffect s) = renameEffect s
  /\ map newName (App.renamedFiles (renameEffect (renameEffect s)))
     = map newName (App.renamedFiles (renameEffect s))
  /\ map dateString (App.renamedFiles (renameEffect s))
     = map dateString (App.renamedFiles s).
Proof.
  assert (H : renameEffect (renameEffect s) = renameEffect s).
  { unfold renameEffect.
    destruct (length (App.renamedFiles s) =? 0)%nat eqn:E.
    - by rewrite E.
    - simpl. rewrite length_map, E. unfold App.setRenamedFiles. simpl.
      f_equal. rewrite <- list_fmap_compose. apply list_fmap_ext.
      intros i rf _. simpl. by apply renameOne_idem. }
  split; [exact H|]. split; [by rewrite H|].
  unfold renameEffect. destruct (length (App.renamedFiles s) =? 0)%nat; [done|].
  simpl. rewrite <- list_fmap_compose. by apply list_fmap_ext.
Qed.

(** ** ExportSequencer *)

Lemma saveAllFrom_enumerate (k : nat) (l : list RenamedFile) :
  saveAllFrom k l
  = map (fun p => (fst p * FIXED_INTERVAL, downloadOf (snd p)))
        (filter (fun p => eligible (snd p)) (imap (fun i rf => (k + i, rf)) l)).
Proof.
  revert k. induction l as [|rf l IH]; intros k; [done|].
  rewrite imap_cons.
  rewrite (imap_ext _ (fun i rf => (S k + i, rf))) by (intros; simpl; f_equal; lia).
  cbn [saveAllFrom]. rewrite (IH (S k)).
  destruct (trim (newName rf)) as [|c t] eqn:E.
  - rewrite filter_cons_False; [done|]. unfold eligible. simpl. rewrite E. tauto.
  - rewrite filter_cons_True by (unfold eligible; simpl; by rewrite E).
    rewrite fmap_cons. f_equal. unfold downloadOf, FIXED_INTERVAL. simpl.
    by rewrite E, Nat.add_0_r.
Qed.

Lemma handleSaveAll_enumerate (l : list RenamedFile) :
  handleSaveAll l
  = map (fun p => (fst p * FIXED_INTERVAL, downloadOf (snd p)))
        (filter (fun p => eligible (snd p)) (imap pair l)).
Proof. apply saveAllFrom_enumerate. Qed.

Lemma handleSaveAll_elem (l : list RenamedFile) (delay : nat) (d : Download) :
  (delay, d) ∈ handleSaveAll l
  <-> exists i rf, l !! i = Some rf /\ eligible rf
                   /\ delay = i * FIXED_INTERVAL /\ d = downloadOf rf.
Proof.
  rewrite handleSaveAll_enumerate, list_elem_of_fmap. split.
  - intros ([i rf] & [= -> ->] & Hin). simpl.
    apply list_elem_of_filter in Hin as [He Hin].
    apply elem_of_lookup_imap in Hin as (j & rf' & [= -> ->] & Hl).
    by exists j, rf'.
  - intros (i & rf & Hl & He & -> & ->). exists (i, rf). split; [done|].
    apply list_elem_of_filter. split; [done|].
    apply elem_of_lookup_imap. by exists i, rf.
Qed.

Lemma handleSaveAll_none (l : list RenamedFile) :
  Forall (fun rf => ~ eligible rf) l -> handleSaveAll l = [].
Proof.
  unfold handleSaveAll. generalize 0. induction l as [|rf l IH]; intros k H; [done|].
  apply Forall_cons in H as [Hrf Hl]. simpl.
  destruct (trim (newName rf)) eqn:E; [by apply IH|].
  exfalso. apply Hrf. unfold eligible. by rewrite E.
Qed.

Lemma commit_unchanged (s : App.state) (b : Browser) :
  commit s (s, b, false) = (s, b).
Proof. unfold commit. by rewrite decide_True. Qed.

Lemma step_SaveAllClicked (w : Session) :
  step SaveAllClicked w
  = Some (mkSession (state w) (browser w)
            (timers w ++ handleSaveAll (App.renamedFiles (state w))) (saved w)).
Proof.
  unfold step. cbn [handle mbind option_bind]. rewrite commit_unchanged. reflexivity.
Qed.

(** C5: the export visits the entries in collection order and sets one
    timer for each entry whose trimmed name is not empty, at the delay of
    the entry's position among ALL entries times 300 ms; the other entries
    are skipped: the timers are the eligible pairs of position and entry,
    in order.  Of three entries with only the second one blank, two timers
    are set, at 0 ms and 600 ms.  The click changes no state cell and no
    object URL, and with no eligible entry it changes nothing at all. *)
Theorem C5_export_schedule (w : Session) :
  let l := App.renamedFiles (state w) in
  handleSaveAll l
    = map (fun p => (fst p * 300, downloadOf (snd p)))
          (filter (fun p => eligible (snd p)) (imap pair l))
  /\ (forall e1 e2 e3, eligible e1 -> ~ eligible e2 -> eligible e3 ->
        handleSaveAll [e1; e2; e3] = [(0, downloadOf e1); (600, downloadOf e3)])
  /\ (exists w', step SaveAllClicked w = Some w'
        /\ state w' = state w /\ browser w' = browser w /\ saved w' = saved w
        /\ timers w' = timers w ++ handleSaveAll l)
  /\ (Forall (fun rf => ~ eligible rf) l ->
        handleSaveAll l = [] /\ step SaveAllClicked w = Some w).
Proof.
  cbv zeta. split; [apply handleSaveAll_enumerate|]. split; [|split].
  - intros e1 e2 e3 H1 H2 H3. unfold handleSaveAll, downloadOf, eligible in *.
    simpl. destruct (trim (newName e1)); [done|].
    destruct (trim (newName e2)); [|by destruct H2].
    by destruct (trim (newName e3)).
  - rewrite step_SaveAllClicked. eauto 10.
  - intros H. split; [by apply handleSaveAll_none|].
    rewrite step_SaveAllClicked, handleSaveAll_none by done.
    rewrite app_nil_r. by destruct w.
Qed.

Lemma C5_export_schedule_witness :
  let e (n : jsstring) := mkRenamedFile (File.mk (js "a.txt") (js "text/plain") 0) n (js "2024-01-02") None in
  handleSaveAll [e (js "x.txt"); e (js "  "); e (js "z.txt")]
  = [(0, downloadOf (e (js "x.txt"))); (600, downloadOf (e (js "z.txt")))].
Proof.
  intros e.
  apply (proj1 (proj2 (C5_export_schedule (initialSession (js "2024-01-02"))))).
  - vm_compute. discriminate.
  - vm_compute. intros H. by apply H.
  - vm_compute. discriminate.
Defined.

(** C10: for every entry that is eligible for export (its trimmed name
    is not empty) the export sets a timer, at the entry's position times
    300 ms, whose download carries the entry's file under the TRIMMED
    name, and no timer at that delay carries anything else; conversely
    every timer set is the timer of an eligible entry, saved under its
    trimmed name.  The trimmed name can differ from the name stored in
    the entry: an entry named [" a.txt "] is saved as ["a.txt"]. *)
Theorem C10_download_name_trimmed :
  (forall (l : list RenamedFile) (i : nat) (rf : RenamedFile),
      l !! i = Some rf -> eligible rf ->
      exists d, (i * 300, d) ∈ handleSaveAll l
                /\ download d = trim (newName rf)
                /\ blobPart d = originalFile rf
                /\ blobType d = File.type (originalFile rf)
                /\ (forall d', (i * 300, d') ∈ handleSaveAll l -> d' = d))
  /\ (forall (l : list RenamedFile) (delay : nat) (d : Download),
      (delay, d) ∈ handleSaveAll l ->
      exists i rf, l !! i = Some rf /\ eligible rf /\ delay = i * 300
                   /\ blobPart d = originalFile rf
                   /\ download d = trim (newName rf))
  /\ (forall f date preview,
        let rf := mkRenamedFile f (js " a.txt ") date preview in
        handleSaveAll [rf] = [(0, downloadOf rf)]
        /\ download (downloadOf rf) = js "a.txt"
        /\ download (downloadOf rf) <> newName rf).
Proof.
  split; [|split].
  - intros l i rf Hl He. exists (downloadOf rf).
    split; [apply handleSaveAll_elem; by exists i, rf|].
    do 3 (split; [reflexivity|]).
    intros d' Hin. apply handleSaveAll_elem in Hin as (j & rf' & Hl' & _ & Hj & ->).
    unfold FIXED_INTERVAL in Hj. assert (j = i) as -> by lia.
    rewrite Hl in Hl'. by injection Hl' as <-.
  - intros l delay d Hin. apply handleSaveAll_elem in Hin as (i & rf & Hl & He & -> & ->).
    by exists i, rf.
  - intros f date preview rf. repeat split. vm_compute. discriminate.
Qed.

Lemma C10_download_name_trimmed_witness :
  let rf1 := mkRenamedFile (File.mk (js "a.txt") (js "text/plain") 0) (js "  ")
               (js "2024-01-02") None in
  let rf2 := mkRenamedFile (File.mk (js "b.txt") (js "text/plain") 0) (js " b.txt")
               (js "2024-01-02") None in
  exists d, (300, d) ∈ handleSaveAll [rf1; rf2] /\ download d = js "b.txt".
Proof.
  intros rf1 rf2.
  assert (Hl : [rf1; rf2] !! 1%nat = Some rf2) by reflexivity.
  assert (He : eligible rf2) by (vm_compute; discriminate).
  destruct (proj1 C10_download_name_trimmed [rf1; rf2] 1 rf2 Hl He)
    as (d & Hin & Hd & _).
  exists d. split; [exact Hin|]. rewrite Hd. reflexivity.
Defined.

(** ** Dates *)

Example toISOString_epoch :
  toISOString 0 = Some (js "1970-01-01T00:00:00.000Z").
Proof. vm_compute. reflexivity. Qed.

Example toISOString_clock :
  toISOString 1709645696789 = Some (js "2024-03-05T13:34:56.789Z").
Proof. vm_compute. reflexivity. Qed.

Example toISODate_leap_day :
  toISODate 951782399999 = Some (js "2000-02-28")
  /\ toISODate 951782400000 = Some (js "2000-02-29")
  /\ toISODate 4107542400000 = Some (js "2100-03-01").
Proof. vm_compute. auto. Qed.

Example toISODate_before_epoch :
  toISODate (-1) = Some (js "1969-12-31").
Proof. vm_compute. reflexivity. Qed.

Example toISOString_range :
  toISOString 8640000000000000 = Some (js "+275760-09-13T00:00:00.000Z")
  /\ toISOString (-8640000000000000) = Some (js "-271821-04-20T00:00:00.000Z")
  /\ toISOString 8640000000000001 = None.
Proof. vm_compute. auto. Qed.

Lemma toISOString_Some_valid t s : toISOString t = Some s -> validTime t = true.
Proof. unfold toISOString. by destruct (validTime t). Qed.

Lemma toISODate_Some_valid t d : toISODate t = Some d -> validTime t = true.
Proof.
  unfold toISODate. destruct (toISOString t) eqn:E; [|done].
  intros _. by eapply toISOString_Some_valid.
Qed.

Lemma toISODate_is_Some t : validTime t = true -> is_Some (toISODate t).
Proof.
  intros H. unfold toISODate, toISOString. rewrite H.
  destruct (civilFromDays (t / msPerDay)) as [[y m] d]. simpl.
  match goal with |- is_Some (head (split ?c ?s)) =>
    pose proof (split_nonempty c s); destruct (split c s); [done|by eexists] end.
Qed.

Lemma head_split_app (sep : N) (a b : jsstring) :
  sep ∉ a -> head (split sep (a ++ sep :: b)) = Some a.
Proof.
  induction a as [|c a IH]; intros Ha; simpl.
  - by rewrite N.eqb_refl.
  - apply not_elem_of_cons in Ha as [Hc Ha].
    destruct (N.eqb_spec c sep) as [->|_]; [done|].
    specialize (IH Ha). by destruct (split sep (a ++ sep :: b)) as [|p ps]; simplify_eq/=.
Qed.

Lemma padDigits_length width n : length (padDigits width n) = width.
Proof.
  revert n. induction width as [|width IH]; intros n; [done|].
  simpl. rewrite length_app, IH. simpl. lia.
Qed.

Lemma padDigits_digits width n : Forall isDigit (padDigits width n).
Proof.
  revert n. induction width as [|width IH]; intros n; [constructor|].
  simpl. apply Forall_app. split; [apply IH|]. constructor; [|constructor].
  unfold isDigit. pose proof (Z.mod_pos_bound n 10 ltac:(lia)). lia.
Qed.

(** The date part of a time stamp in the years 0 to 9999 has the form
    YYYY-MM-DD. *)
Lemma toISODate_dateForm (t y m d : Z) :
  validTime t = true ->
  civilFromDays (t / msPerDay) = (y, m, d) ->
  (0 <= y <= 9999)%Z ->
  exists date, toISODate t = Some date
               /\ dateForm date (padDigits 4 y) (padDigits 2 m) (padDigits 2 d).
Proof.
  intros Hv Hc Hy.
  exists (padDigits 4 y ++ hyphen :: padDigits 2 m ++ hyphen :: padDigits 2 d).
  assert (Hd : Forall isDigit (padDigits 4 y ++ padDigits 2 m ++ padDigits 2 d)).
  { rewrite !Forall_app. auto using padDigits_digits. }
  split.
  - unfold toISODate, toISOString. rewrite Hv, Hc. cbn [mbind option_bind].
    unfold isoYear. replace ((0 <=? y)%Z && (y <=? 9999)%Z) with true
      by (symmetry; apply andb_true_iff; split; apply Z.leb_le; lia).
    match goal with |- head (split _ ?s) = Some ?a =>
      match s with context [js "T" ++ ?rest] =>
        replace s with (a ++ 0x54%N :: rest) by (by rewrite <- !app_assoc)
      end
    end.
    apply head_split_app. change (js "-") with [hyphen].
    assert (HF : forall k n, Forall (fun c => c <> 0x54%N) (padDigits k n)).
    { intros k n. eapply Forall_impl; [apply padDigits_digits|].
      unfold isDigit. intros c Hc' ->. lia. }
    assert (HA : Forall (fun c => c <> 0x54%N)
                   (padDigits 4 y ++ hyphen :: padDigits 2 m ++ hyphen :: padDigits 2 d)).
    { apply Forall_app; split; [apply HF|]. constructor; [done|].
      apply Forall_app; split; [apply HF|]. constructor; [done|apply HF]. }
    intros Hin. rewrite Forall_forall in HA. by apply (HA _ Hin).
  - unfold dateForm. rewrite !padDigits_length. done.
Qed.

(** ** Ingestion *)

Lemma filesToAdd_is_Some u d files b :
  Forall validFile files -> is_Some (filesToAdd u d files b).
Proof.
  revert b. induction files as [|f files IH]; intros b H; [by eexists|].
  apply Forall_cons in H as [Hf H]. simpl.
  destruct (toISODate_is_Some _ Hf) as [x ->]. simpl.
  destruct (startsWith (File.type f) (js "image/")); simpl;
    match goal with |- context [filesToAdd u d files ?b1] =>
      destruct (IH b1 H) as [[added b2] ->] end; by eexists.
Qed.

Lemma state_after_commit prev next b r :
  let s' := (commit prev (next, b, r)).1 in
  App.format s' = App.format next /\ App.codename s' = App.codename next
  /\ App.dateString s' = App.dateString next
  /\ App.useSameDateForAll s' = App.useSameDateForAll next
  /\ (App.renamedFiles s' = App.renamedFiles next
      \/ App.renamedFiles s' = map (renameOne next) (App.renamedFiles next)).
Proof.
  unfold commit. case_decide; [by auto 10|].
  unfold renameEffect. destruct (length (App.renamedFiles next) =? 0)%nat; simpl; auto 10.
Qed.

Lemma step_state e w w' :
  step e w = Some w' ->
  exists h, handle e (state w) (browser w) = Some h
            /\ state w' = (commit (state w) h).1.
Proof.
  unfold step. destruct (handle e (state w) (browser w)) as [h|]; [|done].
  simpl. destruct (commit (state w) h) as [s' b'] eqn:E. intros H.
  exists h. split; [done|]. rewrite E. simpl.
  destruct e as [?|? ?|? ?|?|?|?|?| | |k]; try (by injection H as <-).
  by destruct (timers w !! k) as [[? ?]|]; injection H as <-.
Qed.

Lemma handleFiles_dateString_nonempty selected s b s1 b1 r :
  App.renamedFiles s <> [] ->
  handleFiles selected s b = Some (s1, b1, r) ->
  App.dateString s1 = App.dateString s.
Proof.
  intros Hne. unfold handleFiles.
  destruct selected as [[|firstFile rest]|]; try (by intros [= <- _ _]).
  destruct (App.renamedFiles s) as [|rf l] eqn:El; [done|]. cbn -[filesToAdd].
  destruct (filesToAdd (App.useSameDateForAll s) (App.dateString s)
              (firstFile :: rest) b) as [[added b']|]; simpl; [|done].
  by intros [= <- _ _].
Qed.

Lemma handleFiles_dateString_first firstFile rest s b d :
  App.renamedFiles s = [] ->
  Forall validFile (firstFile :: rest) ->
  toISODate (File.lastModified firstFile) = Some d ->
  exists s1 b1,
    handleFiles (Some (firstFile :: rest)) s b = Some (s1, b1, true)
    /\ App.dateString s1 = d.
Proof.
  intros He Hv Hd. unfold handleFiles. rewrite He. simpl. rewrite Hd. simpl.
  destruct (filesToAdd_is_Some (App.useSameDateForAll s) d (firstFile :: rest) b Hv)
    as [[added b'] Hadd].
  simpl in Hadd. rewrite Hd in Hadd. simpl in Hadd. rewrite Hadd. simpl.
  by eexists _, _.
Qed.

Lemma step_Some_of_handle e w h :
  handle e (state w) (browser w) = Some h -> is_Some (step e w).
Proof.
  intros H. unfold step. rewrite H. simpl.
  destruct (commit (state w) h) as [s' b'].
  destruct e as [?|? ?|? ?|?|?|?|?| | |k]; try (by eexists).
  by destruct (timers w !! k) as [[? ?]|]; eexists.
Qed.

(** C3: in global mode, selecting a non-empty batch of files while the
    collection is EMPTY sets the global date to the date of the first
    selected file's last-modified time, whatever the time stamps of the
    later files, and that date has the form YYYY-MM-DD when its year is
    within 0 to 9999; selecting files while the collection is not empty
    leaves the global date as it was. *)
Theorem C3_global_date_seeding (w : Session) :
  (forall firstFile rest,
      App.useSameDateForAll (state w) = true ->
      App.renamedFiles (state w) = [] ->
      Forall validFile (firstFile :: rest) ->
      exists w' d,
        step (FilesSelected (Some (firstFile :: rest))) w = Some w'
        /\ toISODate (File.lastModified firstFile) = Some d
        /\ App.dateString (state w') = d
        /\ (forall y m dd,
              civilFromDays (File.lastModified firstFile / msPerDay) = (y, m, dd) ->
              (0 <= y <= 9999)%Z ->
              dateForm d (padDigits 4 y) (padDigits 2 m) (padDigits 2 dd)))
  /\ (forall selected w',
        App.renamedFiles (state w) <> [] ->
        step (FilesSelected selected) w = Some w' ->
        App.dateString (state w') = App.dateString (state w)).
Proof.
  split.
  - intros firstFile rest _ He Hv.
    destruct (toISODate_is_Some (File.lastModified firstFile)) as [d Hd].
    { by apply Forall_cons in Hv as [? _]. }
    destruct (handleFiles_dateString_first firstFile rest (state w) (browser w) d He Hv Hd)
      as (s1 & b1 & Hh & Hs1).
    destruct (step_Some_of_handle (FilesSelected (Some (firstFile :: rest))) w _ Hh)
      as [w' Hw'].
    exists w', d. split; [done|]. split; [done|]. split.
    + apply step_state in Hw' as (h & Hh' & ->). cbn [handle] in Hh'.
      rewrite Hh in Hh'. injection Hh' as <-.
      by destruct (state_after_commit (state w) s1 b1 true) as (_ & _ & -> & _).
    + intros y m dd Hc Hy.
      destruct (toISODate_dateForm (File.lastModified firstFile) y m dd) as (d' & Hd' & Hform);
        [by apply Forall_cons in Hv as [? _]|done|done|].
      rewrite Hd in Hd'. by injection Hd' as <-.
  - intros selected w' Hne Hw'.
    apply step_state in Hw' as ([[s1 b1] r] & Hh & ->). cbn [handle] in Hh.
    destruct (state_after_commit (state w) s1 b1 r) as (_ & _ & -> & _).
    by eapply handleFiles_dateString_nonempty.
Qed.

(** ** What the handlers and the effects leave alone *)

Lemma renameOne_fields s rf :
  originalFile (renameOne s rf) = originalFile rf
  /\ dateString (renameOne s rf) = dateString rf
  /\ previewUrl (renameOne s rf) = previewUrl rf.
Proof. done. Qed.

Lemma sameFiles_refl l : sameFiles l l.
Proof. done. Qed.

Lemma sameFiles_trans l1 l2 l3 : sameFiles l1 l2 -> sameFiles l2 l3 -> sameFiles l1 l3.
Proof. intros [H1 H2] [H3 H4]. split; congruence. Qed.

Lemma sameFiles_length l l' : sameFiles l l' -> length l' = length l.
Proof. intros [H _]. apply (f_equal length) in H. by rewrite !length_map in H. Qed.

Lemma sameFiles_previews l l' : sameFiles l l' -> previews l' = previews l.
Proof.
  intros [_ H]. unfold previews. revert l' H.
  induction l as [|rf l IH]; intros [|rf' l'] H; try done.
  injection H as H1 H2. cbn. rewrite H1. by rewrite (IH l' H2).
Qed.

Lemma sameFiles_renameOne s l : sameFiles l (map (renameOne s) l).
Proof. split; rewrite <- list_fmap_compose; by apply list_fmap_ext. Qed.

Lemma sameFiles_updateAt index f l l' :
  (forall rf, originalFile (f rf) = originalFile rf) ->
  (forall rf, previewUrl (f rf) = previewUrl rf) ->
  updateAt index f l = Some l' -> sameFiles l l'.
Proof.
  intros Hf Hp. unfold updateAt. destruct (l !! index) as [rf|] eqn:E; [|done].
  intros [= <-]. split; rewrite list_fmap_insert.
  - rewrite Hf. apply list_insert_id. by rewrite list_lookup_fmap, E.
  - rewrite Hp. apply list_insert_id. by rewrite list_lookup_fmap, E.
Qed.

Lemma toggledDate_fields isChecked g rf rf' :
  toggledDate isChecked g rf = Some rf' ->
  originalFile rf' = originalFile rf /\ newName rf' = newName rf
  /\ previewUrl rf' = previewUrl rf
  /\ (if isChecked then dateString rf' = g
      else toISODate (File.lastModified (originalFile rf)) = Some (dateString rf')).
Proof.
  unfold toggledDate. destruct isChecked.
  - by intros [= <-].
  - destruct (toISODate _) as [d|] eqn:E; [|done]. by intros [= <-].
Qed.

Lemma mapM_toggledDate isChecked g l l' :
  mapM (toggledDate isChecked g) l = Some l' ->
  sameFiles l l' /\ map newName l' = map newName l
  /\ (if isChecked then Forall (fun rf' => dateString rf' = g) l'
      else map (fun rf' => Some (dateString rf')) l'
           = map (fun rf => toISODate (File.lastModified (originalFile rf))) l).
Proof.
  intros HM. apply mapM_Some in HM.
  induction HM as [|rf rf' k k' H HF IH].
  - unfold sameFiles. destruct isChecked; simpl; auto.
  - destruct IH as ([IHa IHb] & IH2 & IH3).
    apply toggledDate_fields in H as (H1 & H2 & H3 & H4).
    unfold sameFiles. simpl. rewrite H1, H2, H3, IHa, IHb, IH2.
    do 2 (split; [done|]). destruct isChecked.
    + by constructor.
    + by rewrite H4, IH3.
Qed.

Lemma mapM_toggledDate_true g l :
  mapM (toggledDate true g) l = Some (map (fun rf => withDateString rf g) l).
Proof. apply mapM_Some. apply Forall2_fmap_r. by apply Forall_Forall2_diag, Forall_true. Qed.

Lemma mapM_toggledDate_false g l :
  Forall validFile (map originalFile l) -> is_Some (mapM (toggledDate false g) l).
Proof.
  intros H. apply mapM_is_Some. rewrite Forall_fmap in H.
  eapply Forall_impl; [exact H|]. intros rf Hv. simpl in *.
  destruct (toISODate_is_Some _ Hv) as [d Hd]. unfold toggledDate. rewrite Hd. by eexists.
Qed.

Lemma filesToAdd_files u d files b added b' :
  filesToAdd u d files b = Some (added, b') ->
  map originalFile added = files /\ Forall validFile files
  /\ Forall (fun rf => newName rf = []) added
  /\ (u = true -> Forall (fun rf => dateString rf = d) added).
Proof.
  revert b added b'. induction files as [|f files IH]; intros b added b'.
  - by intros [= <- <-].
  - cbn [filesToAdd]. destruct (toISODate (File.lastModified f)) as [x|] eqn:E; [|done].
    cbn [mbind option_bind].
    destruct (if startsWith (File.type f) (js "image/")
              then let '(u0, b1) := createObjectURL b in (Some u0, b1)
              else (None, b)) as [preview b1].
    destruct (filesToAdd u d files b1) as [[added' b2]|] eqn:E'; [|done].
    cbn [mbind option_bind]. intros [= <- <-].
    destruct (IH _ _ _ E') as (H1 & H2 & H3 & H4). simpl. rewrite H1.
    split; [done|]. split; [constructor; [by eapply toISODate_Some_valid|done]|].
    split; [by constructor|]. intros ->. constructor; [done|by apply H4].
Qed.

(** The entries a handler leaves: the old ones with their files and
    previews, after the files added, or none. *)
Lemma handle_entries e s b s1 b1 r :
  handle e s b = Some (s1, b1, r) ->
  (sameFiles (App.renamedFiles s) (App.renamedFiles s1) /\ b1 = b)
  \/ (exists newFiles added,
        filesToAdd (App.useSameDateForAll s) (App.dateString s1) newFiles b = Some (added, b1)
        /\ App.renamedFiles s1 = App.renamedFiles s ++ added)
  \/ (App.renamedFiles s1 = [] /\ b1 = b).
Proof.
  destruct e as [selected|index v|index v|isChecked|v|v|v| | |k]; cbn [handle].
  - unfold handleFiles. destruct selected as [[|firstFile rest]|];
      try (intros [= <- <- _]; by left).
    destruct (length (App.renamedFiles s) =? 0)%nat.
    + destruct (toISODate (File.lastModified firstFile)) as [d|]; [|done].
      cbn [mbind option_bind].
      destruct (filesToAdd _ d (firstFile :: rest) b) as [[added b']|] eqn:E; [|done].
      cbn [mbind option_bind]. intros [= <- <- _]. right; left.
      exists (firstFile :: rest), added. by split.
    + cbn [mbind option_bind].
      destruct (filesToAdd _ _ (firstFile :: rest) b) as [[added b']|] eqn:E; [|done].
      cbn [mbind option_bind]. intros [= <- <- _]. right; left.
      exists (firstFile :: rest), added. by split.
  - unfold handleIndividualNameChange.
    destruct (updateAt _ _ _) as [updated|] eqn:E; [|done]. intros [= <- <- _].
    left. split; [|done]. by eapply sameFiles_updateAt in E.
  - unfold handleIndividualDateChange.
    destruct (updateAt _ _ _) as [updated|] eqn:E; [|done]. intros [= <- <- _].
    left. split; [|done]. by eapply sameFiles_updateAt in E.
  - unfold handleDateToggleChange.
    destruct (mapM _ _) as [updated|] eqn:E; [|done]. intros [= <- <- _].
    left. split; [|done]. by apply mapM_toggledDate in E as [? _].
  - intros [= <- <- _]. by left.
  - intros [= <- <- _]. by left.
  - intros [= <- <- _]. by left.
  - intros [= <- <- _]. by left.
  - intros [= <- <- _]. by right; right.
  - intros [= <- <- _]. by left.
Qed.

Lemma commit_sameFiles prev next b r :
  sameFiles (App.renamedFiles next) (App.renamedFiles (commit prev (next, b, r)).1).
Proof.
  destruct (state_after_commit prev next b r) as (_ & _ & _ & _ & [-> | ->]).
  - apply sameFiles_refl.
  - apply sameFiles_renameOne.
Qed.

(** Every file of a reachable session has a time stamp that
    [toISOString] accepts: it went through [handleFiles]. *)
Lemma step_validFiles e w w' :
  Forall validFile (map originalFile (App.renamedFiles (state w))) ->
  step e w = Some w' ->
  Forall validFile (map originalFile (App.renamedFiles (state w'))).
Proof.
  intros Hv Hstep. apply step_state in Hstep as ([[s1 b1] r] & Hh & ->).
  destruct (commit_sameFiles (state w) s1 b1 r) as [-> _].
  apply handle_entries in Hh as [[[-> _] _] | [(newFiles & added & Hadd & ->) | [-> _]]].
  - done.
  - rewrite fmap_app. apply Forall_app. split; [done|].
    apply filesToAdd_files in Hadd as (<- & H & _). exact H.
  - constructor.
Qed.

Lemma run_validFiles es w w' :
  Forall validFile (map originalFile (App.renamedFiles (state w))) ->
  run es w = Some w' ->
  Forall validFile (map originalFile (App.renamedFiles (state w'))).
Proof.
  revert w. induction es as [|e es IH]; intros w Hv; [by intros [= <-]|].
  cbn [run]. destruct (step e w) as [w1|] eqn:E; [|done]. cbn [mbind option_bind].
  apply IH. by eapply step_validFiles.
Qed.

Lemma reachable_validFiles w :
  reachable w -> Forall validFile (map originalFile (App.renamedFiles (state w))).
Proof. intros (today & es & H). eapply run_validFiles; [|exact H]. constructor. Qed.

Lemma reachable_sampleSession : reachable sampleSession.
Proof.
  exists (js "2026-11-03"), [FilesSelected (Some [photo; notes])].
  vm_compute. reflexivity.
Qed.

Lemma C3_global_date_seeding_witness :
  exists w',
    step (FilesSelected (Some [photo; notes])) (initialSession (js "2026-11-03")) = Some w'
    /\ App.dateString (state w') = js "2024-03-05".
Proof.
  assert (Hv : Forall validFile [photo; notes]) by (repeat constructor).
  destruct (proj1 (C3_global_date_seeding (initialSession (js "2026-11-03")))
              photo [notes] eq_refl eq_refl Hv) as (w' & d & Hstep & Hd & Hds & _).
  exists w'. split; [exact Hstep|].
  rewrite Hds. vm_compute in Hd. by injection Hd as <-.
Defined.

Lemma commit_dateStrings prev next b r :
  map dateString (App.renamedFiles (commit prev (next, b, r)).1)
  = map dateString (App.renamedFiles next).
Proof.
  destruct (state_after_commit prev next b r) as (_ & _ & _ & _ & [-> | ->]); [done|].
  rewrite <- list_fmap_compose. by apply list_fmap_ext.
Qed.

(** ** The date toggle *)

Lemma all_dates_equal (g : jsstring) (updated l : list RenamedFile) :
  Forall (fun rf' => dateString rf' = g) updated ->
  length updated = length l ->
  map (fun rf' => Some (dateString rf')) updated = map (fun _ => Some g) l.
Proof.
  intros H. revert l. induction H as [|rf' updated Hrf' _ IH]; intros [|rf l] Hl; try done.
  simpl. rewrite Hrf'. f_equal. apply IH. by injection Hl.
Qed.

(** C4: switching the toggle off sets every entry's date to the date of
    its own file's last-modified time, and switching it on sets every
    entry's date to the current global date; either way the handler sweeps
    the whole collection at once and changes no other field of any entry.
    (The renaming effect that the changed toggle triggers afterwards
    rewrites the names and leaves the dates.) *)
Theorem C4_toggle_sweeps (w : Session) :
  reachable w ->
  let s := state w in
  let l := App.renamedFiles s in
  let g := App.dateString s in
  (exists updated,
      handleDateToggleChange false s (browser w)
      = Some (App.setRenamedFiles updated (App.setUseSameDateForAll false s), browser w, true)
      /\ map (fun rf' => Some (dateString rf')) updated
         = map (fun rf => toISODate (File.lastModified (originalFile rf))) l
      /\ map originalFile updated = map originalFile l
      /\ map newName updated = map newName l
      /\ map previewUrl updated = map previewUrl l)
  /\ handleDateToggleChange true s (browser w)
     = Some (App.setRenamedFiles (map (fun rf => withDateString rf g) l)
               (App.setUseSameDateForAll true s), browser w, true)
  /\ (forall isChecked, exists w',
        step (DateToggleChanged isChecked) w = Some w'
        /\ App.useSameDateForAll (state w') = isChecked
        /\ App.dateString (state w') = g
        /\ map (fun rf' => Some (dateString rf')) (App.renamedFiles (state w'))
           = map (fun rf => if isChecked then Some g
                            else toISODate (File.lastModified (originalFile rf))) l
        /\ sameFiles l (App.renamedFiles (state w'))).
Proof.
  intros Hr s l g. apply reachable_validFiles in Hr. fold s l in Hr.
  assert (Hoff : exists updated, mapM (toggledDate false g) l = Some updated).
  { by apply mapM_toggledDate_false. }
  destruct Hoff as [off Hoff].
  destruct (mapM_toggledDate _ _ _ _ Hoff) as ([Hf Hp] & Hn & Hd).
  split; [|split].
  - exists off. unfold handleDateToggleChange. fold l g. rewrite Hoff. done.
  - unfold handleDateToggleChange. fold l g. by rewrite mapM_toggledDate_true.
  - intros isChecked.
    assert (Hm : exists updated, mapM (toggledDate isChecked g) l = Some updated).
    { destruct isChecked; [|by eexists]. rewrite mapM_toggledDate_true. by eexists. }
    destruct Hm as [updated Hm].
    assert (Hh : handle (DateToggleChanged isChecked) s (browser w)
                 = Some (App.setRenamedFiles updated (App.setUseSameDateForAll isChecked s),
                         browser w, true)).
    { cbn [handle]. unfold handleDateToggleChange. fold l g. by rewrite Hm. }
    destruct (step_Some_of_handle _ _ _ Hh) as [w' Hw'].
    exists w'. split; [done|].
    apply step_state in Hw' as (h & Hh' & ->). fold s in Hh'. rewrite Hh in Hh'.
    injection Hh' as <-.
    match goal with |- context [commit ?p (?n, ?b, true)] =>
      destruct (state_after_commit p n b true) as (_ & _ & -> & -> & _);
      pose proof (commit_sameFiles p n b true) as Hsame;
      pose proof (commit_dateStrings p n b true) as Hdates
    end.
    cbn [App.setRenamedFiles App.setUseSameDateForAll App.renamedFiles
         App.useSameDateForAll App.dateString] in *.
    split; [done|]. split; [done|].
    destruct (mapM_toggledDate _ _ _ _ Hm) as (Hs & _ & Hd').
    split; [|by eapply sameFiles_trans].
    rewrite <- (map_map dateString Some), Hdates, (map_map dateString Some).
    destruct isChecked.
    + apply all_dates_equal; [done|]. by apply sameFiles_length in Hs.
    + exact Hd'.
Qed.

Lemma C4_toggle_sweeps_witness :
  exists w',
    step (DateToggleChanged false) sampleSession = Some w'
    /\ map dateString (App.renamedFiles (state w')) = [js "2024-03-05"; js "1970-01-01"].
Proof.
  destruct (proj2 (proj2 (C4_toggle_sweeps sampleSession reachable_sampleSession)) false)
    as (w' & Hstep & _ & _ & Hd & _).
  exists w'. split; [exact Hstep|].
  apply (inj (map Some)). rewrite map_map, Hd. vm_compute. reflexivity.
Defined.

(** ** Edits of one entry *)

Lemma commit_same_length s l' b :
  length l' = length (App.renamedFiles s) ->
  commit s (App.setRenamedFiles l' s, b, true)
  = (App.setRenamedFiles l' s, cleanupObjectURLs (App.renamedFiles s) b).
Proof.
  intros Hl. unfold commit. rewrite decide_True; [done|].
  unfold renameDeps. simpl. by rewrite Hl.
Qed.

Lemma step_IndividualNameChanged w index value rf :
  App.renamedFiles (state w) !! index = Some rf ->
  step (IndividualNameChanged index value) w
  = Some (mkSession
            (App.setRenamedFiles
               (<[index := withNewName rf value]> (App.renamedFiles (state w))) (state w))
            (cleanupObjectURLs (App.renamedFiles (state w)) (browser w))
            (timers w) (saved w)).
Proof.
  intros Hl. unfold step. cbn [handle]. unfold handleIndividualNameChange, updateAt.
  rewrite Hl. cbn [mbind option_bind].
  by rewrite commit_same_length by apply length_insert.
Qed.

Lemma step_IndividualDateChanged w index value rf :
  App.renamedFiles (state w) !! index = Some rf ->
  step (IndividualDateChanged index value) w
  = Some (mkSession
            (App.setRenamedFiles
               (<[index := withDateString rf value]> (App.renamedFiles (state w))) (state w))
            (cleanupObjectURLs (App.renamedFiles (state w)) (browser w))
            (timers w) (saved w)).
Proof.
  intros Hl. unfold step. cbn [handle]. unfold handleIndividualDateChange, updateAt.
  rewrite Hl. cbn [mbind option_bind].
  by rewrite commit_same_length by apply length_insert.
Qed.

(** C8: an edit of one entry's name, or of one entry's date, overwrites
    that field of that entry and nothing else: the other entries, the
    other fields of the edited entry, and the rule, the codename, the
    global date and the toggle stay as they were, and no renaming sweep
    runs; after an edit of the date the entry still has the name it had
    before. *)
Theorem C8_entry_edit_frame (w : Session) (index : nat) (value : jsstring) (rf : RenamedFile) :
  let l := App.renamedFiles (state w) in
  l !! index = Some rf ->
  (exists w' rf',
      step (IndividualNameChanged index value) w = Some w'
      /\ App.renamedFiles (state w') = <[index := rf']> l
      /\ newName rf' = value /\ dateString rf' = dateString rf
      /\ originalFile rf' = originalFile rf /\ previewUrl rf' = previewUrl rf
      /\ (forall j, j <> index -> App.renamedFiles (state w') !! j = l !! j)
      /\ App.format (state w') = App.format (state w)
      /\ App.codename (state w') = App.codename (state w)
      /\ App.dateString (state w') = App.dateString (state w)
      /\ App.useSameDateForAll (state w') = App.useSameDateForAll (state w))
  /\ (exists w' rf',
      step (IndividualDateChanged index value) w = Some w'
      /\ App.renamedFiles (state w') = <[index := rf']> l
      /\ dateString rf' = value /\ newName rf' = newName rf
      /\ originalFile rf' = originalFile rf /\ previewUrl rf' = previewUrl rf
      /\ (forall j, j <> index -> App.renamedFiles (state w') !! j = l !! j)
      /\ App.renamedFiles (state w') !! index = Some rf'
      /\ App.format (state w') = App.format (state w)
      /\ App.codename (state w') = App.codename (state w)
      /\ App.dateString (state w') = App.dateString (state w)
      /\ App.useSameDateForAll (state w') = App.useSameDateForAll (state w)).
Proof.
  intros l Hl. split.
  - eexists _, (withNewName rf value).
    split; [by apply step_IndividualNameChanged|]. cbn.
    repeat split. intros j Hj. by apply list_lookup_insert_ne.
  - eexists _, (withDateString rf value).
    split; [by apply step_IndividualDateChanged|]. cbn.
    repeat split.
    + intros j Hj. by apply list_lookup_insert_ne.
    + apply list_lookup_insert_eq. by eapply lookup_lt_Some.
Qed.

(** After the date of the first sample entry is edited by hand, in
    per-file mode, its name is still the one computed from the old date,
    not the one the rule gives for the new date. *)
Lemma C8_entry_edit_frame_witness :
  exists w1 w2 rf,
    step (DateToggleChanged false) sampleSession = Some w1
    /\ step (IndividualDateChanged 0 (js "2025-06-07")) w1 = Some w2
    /\ App.renamedFiles (state w2) !! 0%nat = Some rf
    /\ dateString rf = js "2025-06-07"
    /\ newName rf = js "20240305_PROJECT_photo.png"
    /\ newName rf <> newName (renameOne (state w2) rf).
Proof.
  destruct (step (DateToggleChanged false) sampleSession) as [w1|] eqn:E1;
    [|vm_compute in E1; discriminate].
  destruct (App.renamedFiles (state w1) !! 0%nat) as [rf0|] eqn:E0.
  2:{ vm_compute in E1. injection E1 as <-. vm_compute in E0. discriminate. }
  destruct (proj2 (C8_entry_edit_frame w1 0 (js "2025-06-07") rf0 E0))
    as (w2 & rf & Hstep & _ & Hd & Hn & _ & _ & _ & Hrf & Hf & Hc & Hg & Hu).
  exists w1, w2, rf. split; [reflexivity|]. split; [exact Hstep|].
  split; [exact Hrf|]. split; [exact Hd|].
  vm_compute in E1. injection E1 as <-. vm_compute in E0. injection E0 as <-.
  split; [by rewrite Hn|].
  unfold renameOne. rewrite Hf, Hc, Hu, Hn, Hd. vm_compute. discriminate.
Defined.

(** ** Object URLs *)

Lemma cleanup_createdUrls l b :
  createdUrls (cleanupObjectURLs l b) = createdUrls b.
Proof.
  unfold cleanupObjectURLs. revert b.
  induction l as [|rf l IH]; intros b; [done|].
  simpl. rewrite IH. by destruct (previewUrl rf).
Qed.

Lemma cleanup_revokedUrls l b u :
  u ∈ revokedUrls (cleanupObjectURLs l b) <-> u ∈ revokedUrls b \/ u ∈ previews l.
Proof.
  unfold cleanupObjectURLs, previews. revert b.
  induction l as [|rf l IH]; intros b.
  - simpl. rewrite elem_of_nil. tauto.
  - simpl. rewrite IH. destruct (previewUrl rf) as [v|]; simpl; [|tauto].
    rewrite elem_of_union, elem_of_singleton, elem_of_cons. tauto.
Qed.

Lemma commit_browser prev next b r :
  let b' := (commit prev (next, b, r)).2 in
  createdUrls b' = createdUrls b
  /\ (forall u, u ∈ revokedUrls b -> u ∈ revokedUrls b')
  /\ (r = true -> forall u, u ∈ previews (App.renamedFiles prev) -> u ∈ revokedUrls b').
Proof.
  unfold commit.
  assert (H1 : createdUrls (if r then cleanupObjectURLs (App.renamedFiles prev) b else b)
               = createdUrls b).
  { destruct r; [apply cleanup_createdUrls|done]. }
  assert (H2 : forall u, u ∈ revokedUrls b ->
               u ∈ revokedUrls (if r then cleanupObjectURLs (App.renamedFiles prev) b else b)).
  { intros u Hu. destruct r; [|done]. apply cleanup_revokedUrls. by left. }
  assert (H3 : r = true -> forall u, u ∈ previews (App.renamedFiles prev) ->
               u ∈ revokedUrls (if r then cleanupObjectURLs (App.renamedFiles prev) b else b)).
  { intros -> u Hu. apply cleanup_revokedUrls. by right. }
  case_decide; [done|].
  destruct (length (App.renamedFiles next) =? 0)%nat; [done|].
  cbn [snd]. rewrite cleanup_createdUrls. split; [done|].
  split; intros; apply cleanup_revokedUrls; left; auto.
Qed.

Lemma filesToAdd_browser u d files b added b' :
  filesToAdd u d files b = Some (added, b') ->
  createdUrls b <= createdUrls b'
  /\ revokedUrls b' = revokedUrls b
  /\ (forall v, createdUrls b <= v < createdUrls b' -> v ∈ previews added).
Proof.
  revert b added b'. induction files as [|f files IH]; intros b added b'.
  - intros [= <- <-]. split; [done|]. split; [done|]. intros v Hv. lia.
  - cbn [filesToAdd]. destruct (toISODate (File.lastModified f)) as [x|]; [|done].
    cbn [mbind option_bind].
    destruct (startsWith (File.type f) (js "image/")); cbn [createObjectURL].
    + destruct (filesToAdd u d files _) as [[added' b2]|] eqn:E'; [|done].
      cbn [mbind option_bind]. intros [= <- <-].
      destruct (IH _ _ _ E') as (H1 & H2 & H3). cbn in H1, H2, H3.
      split; [lia|]. split; [done|]. intros v Hv. unfold previews. cbn.
      destruct (decide (v = createdUrls b)) as [->|Hne]; [apply list_elem_of_here|].
      apply list_elem_of_further. apply H3. lia.
    + destruct (filesToAdd u d files b) as [[added' b2]|] eqn:E'; [|done].
      cbn [mbind option_bind]. intros [= <- <-].
      destruct (IH _ _ _ E') as (H1 & H2 & H3).
      split; [done|]. split; [done|]. intros v Hv. unfold previews. cbn. by apply H3.
Qed.

Lemma step_inv e w w' :
  step e w = Some w' ->
  exists h, handle e (state w) (browser w) = Some h
            /\ state w' = (commit (state w) h).1
            /\ (browser w' = (commit (state w) h).2
                \/ browser w' = fireDownload (commit (state w) h).2).
Proof.
  unfold step. destruct (handle e (state w) (browser w)) as [h|]; [|done].
  simpl. destruct (commit (state w) h) as [s' b'] eqn:E. intros H.
  exists h. split; [done|]. rewrite E. simpl.
  destruct e as [?|? ?|? ?|?|?|?|?| | |k]; try (injection H as <-; by auto).
  destruct (timers w !! k) as [[? ?]|]; injection H as <-; by auto.
Qed.

Lemma handle_not_replaced e s b s1 b1 :
  handle e s b = Some (s1, b1, false) ->
  App.renamedFiles s1 = App.renamedFiles s.
Proof.
  intros H.
  destruct e as [selected|index v|index v|isChecked|v|v|v| | |k]; cbn [handle] in H;
    try (by injection H as <- _).
  - unfold handleFiles in H. destruct selected as [[|firstFile rest]|];
      try (by injection H as <- _).
    destruct (if (length (App.renamedFiles s) =? 0)%nat then _ else _) as [[d s2]|];
      cbn [mbind option_bind] in H; [|done].
    by destruct (filesToAdd (App.useSameDateForAll s) d (firstFile :: rest) b)
      as [[added b']|].
  - unfold handleIndividualNameChange in H. by destruct (updateAt _ _ _).
  - unfold handleIndividualDateChange in H. by destruct (updateAt _ _ _).
  - unfold handleDateToggleChange in H. by destruct (mapM _ _).
Qed.

Lemma previews_app l k : previews (l ++ k) = previews l ++ previews k.
Proof. apply omap_app. Qed.

Lemma step_noLostUrl e w w' : noLostUrl w -> step e w = Some w' -> noLostUrl w'.
Proof.
  intros HJ Hstep. apply step_inv in Hstep as ([[s1 b1] r] & Hh & Hs & Hb).
  pose proof (commit_sameFiles (state w) s1 b1 r) as Hsame.
  apply sameFiles_previews in Hsame.
  destruct (commit_browser (state w) s1 b1 r) as (Hc & Hrev & Hprev).
  assert (Hgoal : forall u, u < createdUrls (commit (state w) (s1, b1, r)).2 ->
            u ∈ revokedUrls (commit (state w) (s1, b1, r)).2
            \/ u ∈ previews (App.renamedFiles (state w'))).
  { rewrite Hs, Hsame, Hc. intros u Hu.
    assert (Hrepl : length (App.renamedFiles s1) < length (App.renamedFiles (state w))
                    -> r = true).
    { intros Hlt. destruct r; [done|]. apply handle_not_replaced in Hh.
      rewrite Hh in Hlt. lia. }
    apply handle_entries in Hh
      as [[Hsf ->] | [(newFiles & added & Hadd & Hl) | [Hl ->]]].
    - rewrite (sameFiles_previews _ _ Hsf). destruct (HJ u Hu); auto.
    - rewrite Hl, previews_app.
      apply filesToAdd_browser in Hadd as (H1 & H2 & H3).
      destruct (decide (u < createdUrls (browser w))) as [Hlt|Hge].
      + destruct (HJ u Hlt) as [Hr|Hp].
        * left. apply Hrev. by rewrite H2.
        * right. apply elem_of_app. by left.
      + right. apply elem_of_app. right. apply H3. lia.
    - destruct (HJ u Hu) as [Hr|Hp]; [by auto|].
      left. apply Hprev; [|done]. apply Hrepl. rewrite Hl. revert Hp.
      destruct (App.renamedFiles (state w)) as [|rf0 l0]; intros Hp.
      + by apply elem_of_nil in Hp.
      + simpl. lia. }
  clear Hc Hrev Hprev Hsame Hs. revert Hgoal Hb.
  generalize (commit (state w) (s1, b1, r)).2. intros bc Hgoal Hb.
  intros u Hu. destruct Hb as [Hb|Hb]; rewrite Hb in Hu |- *; [by apply Hgoal|].
  unfold fireDownload, createObjectURL, revokeObjectURL in Hu |- *. cbn in Hu |- *.
  destruct (decide (u = createdUrls bc)) as [->|Hne].
  - left. apply elem_of_union. left. by apply elem_of_singleton.
  - destruct (Hgoal u) as [Hr|Hp]; [lia| |by right].
    left. apply elem_of_union. by right.
Qed.

Lemma run_noLostUrl es w w' : noLostUrl w -> run es w = Some w' -> noLostUrl w'.
Proof.
  revert w. induction es as [|e es IH]; intros w HJ; [by intros [= <-]|].
  cbn [run]. destruct (step e w) as [w1|] eqn:E; [|done]. cbn [mbind option_bind].
  apply IH. by eapply step_noLostUrl.
Qed.

Lemma reachable_noLostUrl w : reachable w -> noLostUrl w.
Proof.
  intros (today & es & H). eapply run_noLostUrl; [|exact H].
  intros u Hu. cbn in Hu. lia.
Qed.

(** In a session reached through handlers that all returned, every
    object URL created so far has been revoked once the collection is
    cleared, and once the component is unmounted.  (A selection that
    throws is another matter: see [handleFilesThrown].) *)
Lemma previews_released_on_clear_and_unmount (w : Session) :
  reachable w ->
  (exists w', step ClearClicked w = Some w'
      /\ App.renamedFiles (state w') = []
      /\ forall u, u < createdUrls (browser w') -> u ∈ revokedUrls (browser w'))
  /\ (forall u, u < createdUrls (unmount w) -> u ∈ revokedUrls (unmount w)).
Proof.
  intros Hr. pose proof (reachable_noLostUrl w Hr) as HJ. split.
  - destruct (step_Some_of_handle ClearClicked w _ eq_refl) as [w' Hw'].
    exists w'. split; [done|].
    pose proof (step_noLostUrl _ _ _ HJ Hw') as HJ'.
    apply step_state in Hw' as (h & Hh & Hs). injection Hh as <-.
    assert (He : App.renamedFiles (state w') = []).
    { rewrite Hs. apply nil_length_inv.
      by rewrite (sameFiles_length _ _ (commit_sameFiles _ _ _ _)). }
    split; [done|]. intros u Hu. destruct (HJ' u Hu) as [?|Hp]; [done|].
    rewrite He in Hp. by apply elem_of_nil in Hp.
  - unfold unmount. intros u Hu. rewrite cleanup_createdUrls in Hu.
    apply cleanup_revokedUrls. by apply HJ.
Qed.

(** C6, first half, fails on the code: after the first image is selected
    on the first render, the renaming effect replaces the array, the
    clean-up of the render before revokes the preview URL, and the entry
    of the new array still holds that URL. *)
Theorem C6_preview_revoked_while_referenced :
  exists w' rf u,
    step (FilesSelected (Some [photo])) (initialSession (js "2026-11-03")) = Some w'
    /\ reachable w'
    /\ App.renamedFiles (state w') = [rf]
    /\ previewUrl rf = Some u
    /\ u ∈ revokedUrls (browser w')
    /\ ~ noRevokedPreview w'.
Proof.
  destruct (step (FilesSelected (Some [photo])) (initialSession (js "2026-11-03")))
    as [w'|] eqn:E; [|vm_compute in E; discriminate].
  assert (Hr : reachable w').
  { exists (js "2026-11-03"), [FilesSelected (Some [photo])]. cbn [run]. by rewrite E. }
  vm_compute in E. injection E as <-.
  eexists _, _, 0. split; [reflexivity|]. split; [exact Hr|].
  split; [reflexivity|]. split; [reflexivity|].
  assert (H0 : 0 ∈ ({[0]} ∪ ∅ : gset nat)).
  { apply elem_of_union. left. by apply elem_of_singleton. }
  split; [exact H0|]. intros H. apply (H 0); [|exact H0]. apply list_elem_of_here.
Qed.

(** * Further properties of the code *)

(** ** Names are never blank *)

Lemma trimStart_keeps (c : N) (s : jsstring) :
  c ∈ s -> isWhiteSpace c = false -> c ∈ trimStart s.
Proof.
  intros Hin Hc. induction s as [|c0 s IH]; [done|]. simpl.
  destruct (isWhiteSpace c0) eqn:E0; [|done].
  apply elem_of_cons in Hin as [->|Hin]; [congruence|by apply IH].
Qed.

Lemma trim_keeps (c : N) (s : jsstring) :
  c ∈ s -> isWhiteSpace c = false -> c ∈ trim s.
Proof.
  intros Hin Hc. unfold trim, trimEnd.
  apply list_elem_of_In. apply -> in_rev. apply list_elem_of_In.
  apply trimStart_keeps; [|done].
  apply list_elem_of_In. apply -> in_rev. apply list_elem_of_In.
  by apply trimStart_keeps.
Qed.

Lemma generatedName_underscore (format code dateForCalc name : jsstring) :
  underscore ∈ generatedName format code dateForCalc name.
Proof.
  unfold generatedName.
  repeat case_decide; try (destruct (1 <? length (split dot name))%nat);
    unfold pop; cbv zeta beta iota;
    repeat (apply elem_of_app; right); apply list_elem_of_here || idtac.
  all: apply elem_of_app; right; apply list_elem_of_further.
  all: apply elem_of_app; right; apply list_elem_of_here.
Qed.

Lemma trim_generatedName (format code dateForCalc name : jsstring) :
  trim (generatedName format code dateForCalc name) <> [].
Proof.
  intros Ht.
  pose proof (trim_keeps underscore _ (generatedName_underscore format code dateForCalc name)
                eq_refl) as Hin.
  rewrite Ht in Hin. by apply elem_of_nil in Hin.
Qed.

(** X1: whatever the rule id, the codename, the date and the file name
    are (empty strings included), the generated name has characters left
    after trimming, so a swept entry is never skipped by the export. *)
Theorem X1_generated_name_never_blank (s : App.state) (rf : RenamedFile) :
  (forall format code dateForCalc name,
      trim (generatedName format code dateForCalc name) <> [])
  /\ eligible (renameOne s rf).
Proof.
  split; [apply trim_generatedName|].
  unfold eligible, renameOne. simpl. apply trim_generatedName.
Qed.

(** ** The codename field and the rules that use it *)

Lemma generatedName_code_inj (format code1 code2 dateForCalc name : jsstring) :
  format = date_codename_name \/ format = codename_date_name ->
  generatedName format code1 dateForCalc name = generatedName format code2 dateForCalc name ->
  code1 = code2.
Proof.
  unfold generatedName. intros [-> | ->].
  - rewrite !decide_True by done. intros H.
    apply app_inv_head in H. injection H as H.
    by apply (app_inv_tail (underscore :: name)) in H.
  - rewrite !decide_False by (vm_compute; discriminate).
    rewrite !decide_True by done. intros H.
    by apply (app_inv_tail (underscore :: removeHyphens dateForCalc ++ underscore :: name)) in H.
Qed.

(** X2: the codename field is offered (line 273) exactly when it
    matters: for any rule id that does not contain the word codename the
    generated name does not depend on the codename, and for the ids of
    the table that contain it, two different codes give two different
    names. *)
Theorem X2_codename_field_matters (format code1 code2 dateForCalc name : jsstring) :
  (includes format (js "codename") = false ->
     generatedName format code1 dateForCalc name
     = generatedName format code2 dateForCalc name)
  /\ (format ∈ renameFormats -> includes format (js "codename") = true ->
      code1 <> code2 ->
      generatedName format code1 dateForCalc name
      <> generatedName format code2 dateForCalc name).
Proof.
  split.
  - intros Hi. unfold generatedName.
    repeat case_decide; subst; try reflexivity; vm_compute in Hi; discriminate.
  - intros Hin Hi Hne Heq. apply Hne.
    apply (generatedName_code_inj format code1 code2 dateForCalc name); [|done].
    unfold renameFormats in Hin.
    rewrite !elem_of_cons, elem_of_nil in Hin.
    destruct Hin as [->|[->|[->|[->|[]]]]]; auto; vm_compute in Hi; discriminate.
Qed.

Lemma X2_codename_field_matters_witness :
  generatedName name_date (js "A") (js "2024-03-05") (js "a.txt")
  = generatedName name_date (js "B") (js "2024-03-05") (js "a.txt")
  /\ generatedName codename_date_name (js "A") (js "2024-03-05") (js "a.txt")
     <> generatedName codename_date_name (js "B") (js "2024-03-05") (js "a.txt").
Proof.
  split.
  - apply (proj1 (X2_codename_field_matters name_date (js "A") (js "B")
                    (js "2024-03-05") (js "a.txt"))).
    reflexivity.
  - apply (proj2 (X2_codename_field_matters codename_date_name (js "A") (js "B")
                    (js "2024-03-05") (js "a.txt"))).
    + by_evaluation.
    + reflexivity.
    + vm_compute. discriminate.
Defined.

(** ** When the names are recomputed *)

Lemma commit_cases prev next b r :
  ((commit prev (next, b, r)).1 = next
   /\ (renameDeps prev = renameDeps next \/ App.renamedFiles next = []))
  \/ ((commit prev (next, b, r)).1 = renameEffect next
      /\ renameDeps prev <> renameDeps next /\ App.renamedFiles next <> []).
Proof.
  unfold commit. case_decide; [by auto|].
  destruct (App.renamedFiles next) as [|rf l] eqn:E; simpl; [by auto|].
  right. by repeat split.
Qed.

Lemma renameDeps_commit prev next b r :
  renameDeps (commit prev (next, b, r)).1 = renameDeps next.
Proof.
  destruct (state_after_commit prev next b r) as (Hf & Hc & Hd & Hu & _).
  pose proof (sameFiles_length _ _ (commit_sameFiles prev next b r)) as Hl.
  unfold renameDeps. by rewrite Hf, Hc, Hd, Hu, Hl.
Qed.

Lemma synced_renameEffect s : synced (renameEffect s).
Proof.
  unfold synced, renameEffect.
  destruct (App.renamedFiles s) as [|rf l] eqn:E; simpl.
  - by rewrite E.
  - change (map (renameOne (App.setRenamedFiles (map (renameOne s) (rf :: l)) s))
              (map (renameOne s) (rf :: l)) = map (renameOne s) (rf :: l)).
    rewrite map_map. apply map_ext. intros x. by apply renameOne_idem.
Qed.

Lemma synced_nil s : App.renamedFiles s = [] -> synced s.
Proof. unfold synced. by intros ->. Qed.

Lemma state_eta (s : App.state) :
  App.mk (App.renamedFiles s) (App.codename s) (App.format s) (App.dateString s)
    (App.useSameDateForAll s) = s.
Proof. by destruct s. Qed.

Lemma step_same_state e w s b :
  handle e (state w) (browser w) = Some (s, b, false) ->
  s = state w -> b = browser w ->
  (forall k, e <> TimerFired k) -> e <> SaveAllClicked ->
  step e w = Some w.
Proof.
  intros Hh -> -> Ht Hs. unfold step. rewrite Hh. cbn [mbind option_bind].
  rewrite commit_unchanged.
  destruct e as [?|? ?|? ?|?|?|?|?| | |k]; try (by destruct w).
  by destruct (Ht k).
Qed.

(** X4: the renaming sweep runs exactly when a dependency changes.
    Whenever an event leaves the rule, the codename, the global date, the
    toggle or the number of entries different from before, every entry
    of the resulting collection carries the generated name; and setting
    the rule, the codename or the global date to the value it already has
    changes nothing at all. *)
Theorem X4_sweep_on_dependency_change (e : event) (w w' : Session) :
  (step e w = Some w' ->
   renameDeps (state w') <> renameDeps (state w) ->
   synced (state w')
   /\ Forall (fun rf => newName rf = newName (renameOne (state w') rf))
             (App.renamedFiles (state w')))
  /\ step (FormatChanged (App.format (state w))) w = Some w
  /\ step (CodenameChanged (App.codename (state w))) w = Some w
  /\ step (DateStringChanged (App.dateString (state w))) w = Some w.
Proof.
  split; [|split; [|split]].
  - intros Hstep Hdeps.
    assert (Hs : synced (state w')).
    { apply step_state in Hstep as ([[next b] r] & _ & Hs).
      rewrite Hs in Hdeps |- *. rewrite renameDeps_commit in Hdeps.
      destruct (commit_cases (state w) next b r) as [[-> [Heq|Hnil]]|[-> _]].
      - by destruct Hdeps.
      - by apply synced_nil.
      - apply synced_renameEffect. }
    split; [exact Hs|]. unfold synced in Hs. apply Forall_forall. intros rf Hin.
    apply list_elem_of_lookup in Hin as [i Hi].
    assert (Hi' : map (renameOne (state w')) (App.renamedFiles (state w')) !! i = Some rf)
      by (by rewrite Hs).
    change (map ?f ?l) with (f <$> l) in Hi'. rewrite list_lookup_fmap, Hi in Hi'.
    simpl in Hi'. by injection Hi' as ->.
  - eapply step_same_state; [reflexivity| | | |]; try done.
    unfold App.setFormat. apply state_eta.
  - eapply step_same_state; [reflexivity| | | |]; try done.
    unfold App.setCodename. apply state_eta.
  - eapply step_same_state; [reflexivity| | | |]; try done.
    unfold App.setDateString. apply state_eta.
Qed.

Lemma X4_sweep_on_dependency_change_witness :
  exists w',
    step (FormatChanged name_date) sampleSession = Some w'
    /\ map newName (App.renamedFiles (state w'))
       = [js "photo_20240305.png"; js "notes_20240305.txt"]
    /\ synced (state w').
Proof.
  destruct (step (FormatChanged name_date) sampleSession) as [w'|] eqn:E;
    [|vm_compute in E; discriminate].
  exists w'. split; [reflexivity|].
  assert (Hd : renameDeps (state w') <> renameDeps (state sampleSession)).
  { vm_compute in E. injection E as <-. vm_compute. discriminate. }
  split.
  - vm_compute in E. injection E as <-. vm_compute. reflexivity.
  - exact (proj1 (proj1 (X4_sweep_on_dependency_change
                           (FormatChanged name_date) sampleSession w') E Hd)).
Defined.

Lemma renameOne_withNewName s rf v : renameOne s (withNewName rf v) = renameOne s rf.
Proof. reflexivity. Qed.

Lemma renameEffect_setRenamedFiles_insert s index rf v :
  App.renamedFiles s !! index = Some rf ->
  renameEffect (App.setRenamedFiles (<[index := withNewName rf v]> (App.renamedFiles s)) s)
  = renameEffect s.
Proof.
  intros Hl. unfold renameEffect. cbn [App.setRenamedFiles App.renamedFiles].
  rewrite length_insert. destruct (length (App.renamedFiles s) =? 0)%nat eqn:E.
  - apply Nat.eqb_eq in E. apply nil_length_inv in E. by rewrite E in Hl.
  - unfold App.setRenamedFiles. cbn. f_equal.
    change (renameOne ?a <$> ?l) with (map (renameOne a) l).
    transitivity (map (renameOne s) (<[index := withNewName rf v]> (App.renamedFiles s))).
    { by apply map_ext. }
    change (map ?f ?l) with (f <$> l). rewrite list_fmap_insert, renameOne_withNewName.
    apply list_insert_id. by rewrite list_lookup_fmap, Hl.
Qed.

Lemma commit_changed prev next b r :
  renameDeps prev <> renameDeps next -> App.renamedFiles next <> [] ->
  (commit prev (next, b, r)).1 = renameEffect next.
Proof.
  intros Hd Hn. destruct (commit_cases prev next b r) as [[_ [H|H]]|[H _]]; done.
Qed.

(** The three global setters, as functions of the value and the state. *)
Lemma handle_global_setter e w w' :
  step e w = Some w' ->
  forall (set : App.state -> App.state),
    handle e (state w) (browser w) = Some (set (state w), browser w, false) ->
    state w' = (commit (state w) (set (state w), browser w, false)).1.
Proof.
  intros Hstep set Hh. apply step_state in Hstep as (h & Hh' & ->).
  rewrite Hh in Hh'. by injection Hh' as <-.
Qed.

(** X3: a name typed by hand does not survive the next change of the
    rule, the codename or the global date: the state after such a change
    is the one the change alone would have produced, whatever was
    typed. *)
Theorem X3_manual_name_overwritten (w w1 w2 : Session) (index : nat)
    (typed : jsstring) (e : event) :
  step (IndividualNameChanged index typed) w = Some w1 ->
  step e w1 = Some w2 ->
  (exists v, (e = FormatChanged v /\ v <> App.format (state w))
             \/ (e = CodenameChanged v /\ v <> App.codename (state w))
             \/ (e = DateStringChanged v /\ v <> App.dateString (state w))) ->
  exists w2', step e w = Some w2' /\ state w2 = state w2'
              /\ synced (state w2).
Proof.
  intros H1 H2 He.
  assert (Hl : exists rf, App.renamedFiles (state w) !! index = Some rf).
  { apply step_state in H1 as (h & Hh & _). cbn [handle] in Hh.
    unfold handleIndividualNameChange, updateAt in Hh.
    destruct (App.renamedFiles (state w) !! index) as [rf|]; [by eexists|done]. }
  destruct Hl as [rf Hl].
  rewrite (step_IndividualNameChanged _ _ _ _ Hl) in H1. injection H1 as <-.
  assert (Hne : App.renamedFiles (state w) <> []) by (intros Hn; by rewrite Hn in Hl).
  assert (Hne1 : <[index := withNewName rf typed]> (App.renamedFiles (state w)) <> []).
  { intros Hn. apply (f_equal length) in Hn. rewrite length_insert in Hn.
    by apply nil_length_inv in Hn. }
  assert (Hgen : forall (set : App.state -> App.state),
    (forall l' s, set (App.setRenamedFiles l' s) = App.setRenamedFiles l' (set s)) ->
    (forall s, App.renamedFiles (set s) = App.renamedFiles s) ->
    (forall s, (App.format (set s), App.codename (set s), App.dateString (set s),
                App.useSameDateForAll (set s))
               <> (App.format s, App.codename s, App.dateString s, App.useSameDateForAll s)
               -> renameDeps s <> renameDeps (set s)) ->
    (App.format (set (state w)), App.codename (set (state w)),
     App.dateString (set (state w)), App.useSameDateForAll (set (state w)))
    <> (App.format (state w), App.codename (state w), App.dateString (state w),
        App.useSameDateForAll (state w)) ->
    handle e (state w) (browser w) = Some (set (state w), browser w, false) ->
    (forall s b, handle e s b = Some (set s, b, false)) ->
    exists w2', step e w = Some w2' /\ state w2 = state w2' /\ synced (state w2)).
  { intros set Hcomm Hset Hdeps Hd Hh Hall.
    destruct (step_Some_of_handle e w _ Hh) as [w2' Hw2'].
    exists w2'. split; [done|].
    pose proof (handle_global_setter _ _ _ Hw2' set Hh) as E2'.
    pose proof (handle_global_setter _ _ _ H2 set (Hall _ _)) as E2.
    cbn [state browser] in E2. rewrite E2, E2'.
    rewrite (commit_changed (state w) (set (state w)));
      [|by apply Hdeps|by rewrite Hset].
    rewrite commit_changed.
    - split; [|apply synced_renameEffect]. rewrite Hcomm.
      rewrite <- (Hset (state w)).
      apply renameEffect_setRenamedFiles_insert. by rewrite Hset.
    - apply Hdeps. by rewrite Hcomm.
    - by rewrite Hset. }
  destruct He as (v & [[-> Hv]|[[-> Hv]|[-> Hv]]]).
  - apply (Hgen (App.setFormat v)); try done.
    + intros s Hs Heq. apply Hs. unfold renameDeps in Heq. congruence.
    + cbn. congruence.
  - apply (Hgen (App.setCodename v)); try done.
    + intros s Hs Heq. apply Hs. unfold renameDeps in Heq. congruence.
    + cbn. congruence.
  - apply (Hgen (App.setDateString v)); try done.
    + intros s Hs Heq. apply Hs. unfold renameDeps in Heq. congruence.
    + cbn. congruence.
Qed.

Lemma X3_manual_name_overwritten_witness :
  exists w1 w2 w2',
    step (IndividualNameChanged 0 (js "holiday.png")) sampleSession = Some w1
    /\ step (CodenameChanged (js "V2")) w1 = Some w2
    /\ step (CodenameChanged (js "V2")) sampleSession = Some w2'
    /\ state w2 = state w2'.
Proof.
  destruct (step (IndividualNameChanged 0 (js "holiday.png")) sampleSession)
    as [w1|] eqn:E1; [|vm_compute in E1; discriminate].
  destruct (step (CodenameChanged (js "V2")) w1) as [w2|] eqn:E2.
  2:{ vm_compute in E1. injection E1 as <-. vm_compute in E2. discriminate. }
  destruct (X3_manual_name_overwritten sampleSession w1 w2 0 (js "holiday.png")
              (CodenameChanged (js "V2")) E1 E2) as (w2' & H & Hs & _).
  { exists (js "V2"). right; left. split; [reflexivity|]. vm_compute. discriminate. }
  exists w1, w2, w2'. split; [reflexivity|]. split; [exact E2|]. split; [exact H|exact Hs].
Defined.

(** ** Names stay in step with the rule *)

Lemma perFileDates_renameEffect s : perFileDates s -> perFileDates (renameEffect s).
Proof.
  unfold perFileDates, renameEffect. intros H.
  destruct (length (App.renamedFiles s) =? 0)%nat; [done|].
  cbn [App.setRenamedFiles App.useSameDateForAll App.renamedFiles]. intros Hu.
  specialize (H Hu). apply Forall_forall. intros rf' Hin.
  apply list_elem_of_In, in_map_iff in Hin as (rf & <- & Hin).
  rewrite Forall_forall in H. apply (H rf). by apply list_elem_of_In.
Qed.

Lemma filesToAdd_perFile d files b added b' :
  filesToAdd false d files b = Some (added, b') ->
  Forall (fun rf => toISODate (File.lastModified (originalFile rf)) = Some (dateString rf))
         added.
Proof.
  revert b added b'. induction files as [|f files IH]; intros b added b'.
  - intros [= <- <-]. constructor.
  - cbn [filesToAdd]. destruct (toISODate (File.lastModified f)) as [x|] eqn:E; [|done].
    cbn [mbind option_bind].
    destruct (if startsWith (File.type f) (js "image/")
              then let '(u0, b1) := createObjectURL b in (Some u0, b1)
              else (None, b)) as [preview b1].
    destruct (filesToAdd false d files b1) as [[added' b2]|] eqn:E'; [|done].
    cbn [mbind option_bind]. intros [= <- <-].
    constructor; [done|by eapply IH].
Qed.

Lemma filesToAdd_length u d files b added b' :
  filesToAdd u d files b = Some (added, b') -> length added = length files.
Proof.
  intros H. apply filesToAdd_files in H as (H & _).
  rewrite <- H. by rewrite length_map.
Qed.

Lemma mapM_toggledDate_false_dates g l updated :
  mapM (toggledDate false g) l = Some updated ->
  Forall (fun rf => toISODate (File.lastModified (originalFile rf)) = Some (dateString rf))
         updated.
Proof.
  intros HM. apply mapM_Some in HM.
  induction HM as [|rf rf' k k' H HF IH]; constructor; [|done].
  apply toggledDate_fields in H as (-> & _ & _ & H). done.
Qed.

Lemma withDateString_id rf : withDateString rf (dateString rf) = rf.
Proof. by destruct rf. Qed.

Lemma mapM_toggledDate_false_id g l :
  Forall (fun rf => toISODate (File.lastModified (originalFile rf)) = Some (dateString rf)) l ->
  mapM (toggledDate false g) l = Some l.
Proof.
  intros H. apply mapM_Some. apply Forall_Forall2_diag.
  eapply Forall_impl; [exact H|]. intros rf Hrf. unfold toggledDate.
  rewrite Hrf. cbn. by rewrite withDateString_id.
Qed.

Lemma synced_toggle_on s :
  synced s -> App.useSameDateForAll s = true ->
  synced (App.setRenamedFiles
            (map (fun rf => withDateString rf (App.dateString s)) (App.renamedFiles s))
            (App.setUseSameDateForAll true s)).
Proof.
  unfold synced. intros Hs Hu. cbn [App.setRenamedFiles App.renamedFiles].
  rewrite map_map. rewrite <- Hs at 2. rewrite map_map. apply map_ext.
  intros rf. unfold renameOne. cbn. by rewrite Hu.
Qed.

(** The step keeps names in step with the rule, and per-file dates equal
    to the file dates, unless it is an edit of one entry. *)
Lemma step_synced e w w' :
  synced (state w) -> perFileDates (state w) -> ~ isEntryEdit e ->
  step e w = Some w' ->
  synced (state w') /\ perFileDates (state w').
Proof.
  intros Hs Hp He Hstep.
  apply step_state in Hstep as ([[next b] r] & Hh & Hw').
  assert (Hnext : perFileDates next
                  /\ (renameDeps (state w) = renameDeps next -> synced next)).
  { destruct e as [selected|index v|index v|isChecked|v|v|v| | |k]; cbn [handle] in Hh;
      try (by destruct He); try (injection Hh as <- _ _).
    - unfold handleFiles in Hh.
      destruct selected as [[|firstFile rest]|]; try (by injection Hh as <- _ _).
      destruct (if (length (App.renamedFiles (state w)) =? 0)%nat then _ else _)
        as [[d s1]|] eqn:E1; cbn [mbind option_bind] in Hh; [|done].
      destruct (filesToAdd (App.useSameDateForAll (state w)) d (firstFile :: rest)
                  (browser w)) as [[added b']|] eqn:E2;
        cbn [mbind option_bind] in Hh; [|done].
      assert (Hs1 : App.renamedFiles s1 = App.renamedFiles (state w)
                    /\ App.useSameDateForAll s1 = App.useSameDateForAll (state w)
                    /\ App.format s1 = App.format (state w)
                    /\ App.codename s1 = App.codename (state w)).
      { destruct (length (App.renamedFiles (state w)) =? 0)%nat.
        - destruct (toISODate (File.lastModified firstFile)); [|done].
          by injection E1 as <- <-.
        - by injection E1 as <- <-. }
      destruct Hs1 as (Hl1 & Hu1 & _).
      pose proof (filesToAdd_length _ _ _ _ _ _ E2) as Hlen.
      injection Hh as <- <- <-.
      split.
      + unfold perFileDates. cbn [App.setRenamedFiles App.useSameDateForAll App.renamedFiles].
        rewrite Hu1, Hl1. intros Hu. apply Forall_app. split; [by apply Hp|].
        rewrite Hu in E2. by eapply filesToAdd_perFile.
      + intros Hd. exfalso. unfold renameDeps in Hd.
        cbn [App.setRenamedFiles App.renamedFiles] in Hd.
        apply (f_equal (fun p => p.2)) in Hd. cbn in Hd.
        rewrite Hl1, length_app, Hlen in Hd. simpl in Hd. lia.
    - unfold handleDateToggleChange in Hh.
      destruct (mapM _ _) as [updated|] eqn:EM; [|done]. injection Hh as <- _ _.
      split.
      + unfold perFileDates. cbn [App.setRenamedFiles App.setUseSameDateForAll
          App.useSameDateForAll App.renamedFiles]. intros ->.
        by eapply mapM_toggledDate_false_dates.
      + intros Hd. unfold renameDeps in Hd.
        cbn [App.setRenamedFiles App.setUseSameDateForAll App.useSameDateForAll
             App.format App.codename App.dateString App.renamedFiles] in Hd.
        apply (f_equal (fun p => p.1.2)) in Hd. cbn in Hd. destruct isChecked.
        * rewrite mapM_toggledDate_true in EM. injection EM as <-.
          by apply synced_toggle_on.
        * rewrite mapM_toggledDate_false_id in EM by (by apply Hp).
          injection EM as <-. unfold App.setRenamedFiles, App.setUseSameDateForAll. cbn.
          rewrite <- Hd. by rewrite state_eta.
    - split; [done|]. intros Hd. apply (f_equal (fun p => p.1.1.2)) in Hd.
      unfold App.setDateString. cbn in Hd. rewrite <- Hd. by rewrite state_eta.
    - split; [done|]. intros Hd. apply (f_equal (fun p => p.1.1.1.1)) in Hd.
      unfold App.setFormat. cbn in Hd. rewrite <- Hd. by rewrite state_eta.
    - split; [done|]. intros Hd. apply (f_equal (fun p => p.1.1.1.2)) in Hd.
      unfold App.setCodename. cbn in Hd. rewrite <- Hd. by rewrite state_eta.
    - done.
    - split; [|intros _; by apply synced_nil]. intros _. constructor.
    - done. }
  destruct Hnext as [Hp' Hs'].
  rewrite Hw'. destruct (commit_cases (state w) next b r) as [[-> [Heq|Hnil]]|[-> _]].
  - by auto.
  - split; [by apply synced_nil|done].
  - split; [apply synced_renameEffect|by apply perFileDates_renameEffect].
Qed.

Lemma run_synced es w w' :
  synced (state w) -> perFileDates (state w) ->
  Forall (fun e => ~ isEntryEdit e) es ->
  run es w = Some w' ->
  synced (state w') /\ perFileDates (state w').
Proof.
  revert w. induction es as [|e es IH]; intros w Hs Hp Hes; [by intros [= <-]|].
  apply Forall_cons in Hes as [He Hes].
  cbn [run]. destruct (step e w) as [w1|] eqn:E; [|done]. cbn [mbind option_bind].
  destruct (step_synced _ _ _ Hs Hp He E). by apply IH.
Qed.

(** X5: a name differs from what the rule gives only through an edit of
    one entry: after any run of events from the first render that contains
    no edit of a single entry's name or date, every entry carries the
    generated name (and, in per-file mode, the date of its own file). *)
Theorem X5_names_follow_rule (today : jsstring) (es : list event) (w : Session) :
  Forall (fun e => ~ isEntryEdit e) es ->
  run es (initialSession today) = Some w ->
  synced (state w) /\ perFileDates (state w)
  /\ Forall (fun rf => newName rf = newName (renameOne (state w) rf))
            (App.renamedFiles (state w)).
Proof.
  intros Hes Hrun.
  destruct (run_synced es (initialSession today) w) as [Hs Hp];
    [reflexivity | intros _; constructor | exact Hes | exact Hrun |].
  split; [done|]. split; [done|].
  unfold synced in Hs. rewrite <- Hs at 1. apply Forall_forall. intros rf' Hin.
  apply list_elem_of_In, in_map_iff in Hin as (rf & <- & Hin). reflexivity.
Qed.

Lemma X5_names_follow_rule_witness :
  exists w,
    run [FilesSelected (Some [photo; notes]); DateToggleChanged false;
         FormatChanged name_date; CodenameChanged (js "V2")]
      (initialSession (js "2026-11-03")) = Some w
    /\ synced (state w)
    /\ map newName (App.renamedFiles (state w))
       = [js "photo_20240305.png"; js "notes_19700101.txt"].
Proof.
  destruct (run [FilesSelected (Some [photo; notes]); DateToggleChanged false;
                 FormatChanged name_date; CodenameChanged (js "V2")]
              (initialSession (js "2026-11-03"))) as [w|] eqn:E;
    [|vm_compute in E; discriminate].
  exists w. split; [reflexivity|]. split.
  - refine (proj1 (X5_names_follow_rule _ _ w _ E)).
    repeat constructor; intros [].
  - vm_compute in E. injection E as <-. vm_compute. reflexivity.
Defined.

(** ** Which events go through *)

Lemma filesToAdd_Some_iff u d files b :
  is_Some (filesToAdd u d files b) <-> Forall validFile files.
Proof.
  split; [|apply filesToAdd_is_Some].
  intros [[added b'] H]. by apply filesToAdd_files in H as (_ & H & _).
Qed.

Lemma step_is_Some_handle e w : is_Some (step e w) <-> is_Some (handle e (state w) (browser w)).
Proof.
  split.
  - intros [w' H]. apply step_state in H as (h & -> & _). by eexists.
  - intros [h H]. by eapply step_Some_of_handle.
Qed.

(** X6: in a reachable session an event fails in two cases only: a
    selection that contains a file whose time stamp [toISOString]
    rejects (the handler throws), and an edit of a row that does not
    exist.  Selecting nothing ([null] or an empty list) leaves the session
    exactly as it was. *)
Theorem X6_events_that_go_through (e : event) (w : Session) :
  reachable w ->
  (is_Some (step e w) <-> accepted e (state w))
  /\ step (FilesSelected None) w = Some w
  /\ step (FilesSelected (Some [])) w = Some w.
Proof.
  intros Hr. split; [|split].
  - rewrite step_is_Some_handle.
    destruct e as [selected|index v|index v|isChecked|v|v|v| | |k]; cbn [handle accepted];
      try (split; [done|intros _; by eexists]).
    + unfold handleFiles. destruct selected as [[|firstFile rest]|].
      * split; [intros _; constructor|intros _; by eexists].
      * split.
        -- intros [h Hh].
           destruct (if (length (App.renamedFiles (state w)) =? 0)%nat then _ else _)
             as [[d s1]|]; cbn [mbind option_bind] in Hh; [|done].
           apply (filesToAdd_Some_iff (App.useSameDateForAll (state w)) d _ (browser w)).
           by destruct (filesToAdd _ _ _ _) as [[? ?]|].
        -- intros Hv.
           assert (Hf : is_Some (toISODate (File.lastModified firstFile))).
           { apply toISODate_is_Some. by apply Forall_cons in Hv as [? _]. }
           destruct Hf as [d0 Hd0]. rewrite Hd0.
           destruct (length (App.renamedFiles (state w)) =? 0)%nat; cbn [mbind option_bind].
           ++ destruct (filesToAdd_is_Some (App.useSameDateForAll (state w)) d0 _
                          (browser w) Hv) as [[added b'] ->]. by eexists.
           ++ destruct (filesToAdd_is_Some (App.useSameDateForAll (state w))
                          (App.dateString (state w)) _ (browser w) Hv) as [[added b'] ->].
              by eexists.
      * split; [done|intros _; by eexists].
    + unfold handleIndividualNameChange, updateAt.
      rewrite <- lookup_lt_is_Some.
      destruct (App.renamedFiles (state w) !! index); cbn; split; try done;
        try (intros _; by eexists).
    + unfold handleIndividualDateChange, updateAt.
      rewrite <- lookup_lt_is_Some.
      destruct (App.renamedFiles (state w) !! index); cbn; split; try done;
        try (intros _; by eexists).
    + split; [done|]. intros _. unfold handleDateToggleChange.
      destruct isChecked.
      * rewrite mapM_toggledDate_true. by eexists.
      * destruct (mapM_toggledDate_false (App.dateString (state w))
                    (App.renamedFiles (state w))) as [updated ->]; [|by eexists].
        by apply reachable_validFiles.
  - by eapply step_same_state.
  - by eapply step_same_state.
Qed.

Lemma X6_events_that_go_through_witness :
  is_Some (step (IndividualNameChanged 1 (js "n.txt")) sampleSession)
  /\ ~ is_Some (step (IndividualNameChanged 2 (js "n.txt")) sampleSession)
  /\ ~ is_Some (step (FilesSelected
                        (Some [notes; File.mk (js "far.txt") (js "text/plain")
                                        8640000000000001])) sampleSession).
Proof.
  split; [|split].
  - apply (proj1 (X6_events_that_go_through _ sampleSession reachable_sampleSession)).
    vm_compute. lia.
  - intros H.
    apply (proj1 (X6_events_that_go_through _ sampleSession reachable_sampleSession)) in H.
    vm_compute in H. lia.
  - intros H.
    apply (proj1 (X6_events_that_go_through _ sampleSession reachable_sampleSession)) in H.
    cbn [accepted] in H. apply Forall_cons in H as [_ H]. apply Forall_cons in H as [H _].
    vm_compute in H. discriminate.
Defined.

(** ** The collection only grows at its end, or is emptied *)

Lemma handle_filesAfter e s b next b' r :
  handle e s b = Some (next, b', r) ->
  map originalFile (App.renamedFiles next)
  = filesAfter e (map originalFile (App.renamedFiles s)).
Proof.
  destruct e as [selected|index v|index v|isChecked|v|v|v| | |k];
    cbn [handle filesAfter]; try (by intros [= <- _ _]).
  - unfold handleFiles. destruct selected as [[|firstFile rest]|];
      try (intros [= <- _ _]; by rewrite ?app_nil_r).
    intros Hh.
    destruct (if (length (App.renamedFiles s) =? 0)%nat then _ else _)
      as [[d s1]|] eqn:E1; cbn [mbind option_bind] in Hh; [|done].
    assert (Hl1 : App.renamedFiles s1 = App.renamedFiles s).
    { destruct (length (App.renamedFiles s) =? 0)%nat.
      - destruct (toISODate (File.lastModified firstFile)); [|done].
        by injection E1 as <- <-.
      - by injection E1 as <- <-. }
    destruct (filesToAdd (App.useSameDateForAll s) d (firstFile :: rest) b)
      as [[added b1]|] eqn:E2; cbn [mbind option_bind] in Hh; [|done].
    injection Hh as <- _ _. cbn [App.setRenamedFiles App.renamedFiles].
    rewrite Hl1, map_app. f_equal. by apply filesToAdd_files in E2 as (-> & _).
  - unfold handleIndividualNameChange.
    destruct (updateAt _ _ _) as [updated|] eqn:E; [|done]. intros [= <- _ _].
    cbn [App.setRenamedFiles App.renamedFiles].
    apply sameFiles_updateAt in E as [HE _]; [by rewrite HE|done|done].
  - unfold handleIndividualDateChange.
    destruct (updateAt _ _ _) as [updated|] eqn:E; [|done]. intros [= <- _ _].
    cbn [App.setRenamedFiles App.renamedFiles].
    apply sameFiles_updateAt in E as [HE _]; [by rewrite HE|done|done].
  - unfold handleDateToggleChange.
    destruct (mapM _ _) as [updated|] eqn:E; [|done]. intros [= <- _ _].
    cbn [App.setRenamedFiles App.renamedFiles].
    apply mapM_toggledDate in E as [[HE _] _]. by rewrite HE.
Qed.

Lemma step_filesAfter e w w' :
  step e w = Some w' ->
  map originalFile (App.renamedFiles (state w'))
  = filesAfter e (map originalFile (App.renamedFiles (state w))).
Proof.
  intros Hstep. apply step_state in Hstep as ([[next b] r] & Hh & ->).
  destruct (commit_sameFiles (state w) next b r) as [-> _].
  by eapply handle_filesAfter.
Qed.

(** X7: the collection is append-only except for the full clear.  After
    any event the files of the collection are: the old ones followed by
    the selected ones, in the order of the selection and with nothing
    left out or merged (a file selected twice is there twice), for a
    selection; none for a clear; and the same files in the same order for
    every other event. *)
Theorem X7_collection_append_only (e : event) (w w' : Session) :
  step e w = Some w' ->
  map originalFile (App.renamedFiles (state w'))
  = filesAfter e (map originalFile (App.renamedFiles (state w)))
  /\ (e <> ClearClicked ->
      length (App.renamedFiles (state w)) <= length (App.renamedFiles (state w'))
      /\ take (length (App.renamedFiles (state w)))
              (map originalFile (App.renamedFiles (state w')))
         = map originalFile (App.renamedFiles (state w))).
Proof.
  intros Hstep. pose proof (step_filesAfter _ _ _ Hstep) as H.
  split; [exact H|]. intros Hne.
  assert (Hp : exists more, map originalFile (App.renamedFiles (state w'))
                            = map originalFile (App.renamedFiles (state w)) ++ more).
  { rewrite H. destruct e as [[selected|]|? ?|? ?|?|?|?|?| | |k]; cbn [filesAfter];
      try done; try (by eexists); exists []; by rewrite app_nil_r. }
  destruct Hp as [more Hp]. split.
  - apply (f_equal length) in Hp. rewrite length_app, !length_map in Hp. lia.
  - rewrite Hp. rewrite <- (length_map originalFile). by rewrite take_app_length.
Qed.

Lemma X7_collection_append_only_witness :
  exists w',
    step (FilesSelected (Some [notes; notes])) sampleSession = Some w'
    /\ map originalFile (App.renamedFiles (state w')) = [photo; notes; notes; notes].
Proof.
  destruct (step (FilesSelected (Some [notes; notes])) sampleSession) as [w'|] eqn:E;
    [|vm_compute in E; discriminate].
  exists w'. split; [reflexivity|].
  rewrite (proj1 (X7_collection_append_only _ _ _ E)). reflexivity.
Defined.

(** ** The entries made for a selection *)

Lemma filesToAdd_entries u d files b added b' :
  filesToAdd u d files b = Some (added, b') ->
  Forall2 (fun f rf =>
             originalFile rf = f
             /\ (is_Some (previewUrl rf) <-> startsWith (File.type f) (js "image/") = true)
             /\ (if u then dateString rf = d
                 else toISODate (File.lastModified f) = Some (dateString rf)))
          files added.
Proof.
  revert b added b'. induction files as [|f files IH]; intros b added b'.
  - intros [= <- <-]. constructor.
  - cbn [filesToAdd]. destruct (toISODate (File.lastModified f)) as [x|] eqn:E; [|done].
    cbn [mbind option_bind].
    destruct (startsWith (File.type f) (js "image/")) eqn:Ei; cbn [createObjectURL].
    + destruct (filesToAdd u d files _) as [[added' b2]|] eqn:E'; [|done].
      cbn [mbind option_bind]. intros [= <- <-].
      constructor; [|by eapply IH]. cbn [originalFile previewUrl dateString].
      rewrite Ei. split; [done|]. split; [by split; eauto|].
      by destruct u.
    + destruct (filesToAdd u d files b) as [[added' b2]|] eqn:E'; [|done].
      cbn [mbind option_bind]. intros [= <- <-].
      constructor; [|by eapply IH]. cbn [originalFile previewUrl dateString].
      rewrite Ei. split; [done|].
      split; [split; [by intros [? ?]|done]|]. by destruct u.
Qed.

Lemma renameOne_ext s s' rf :
  App.format s' = App.format s -> App.codename s' = App.codename s ->
  App.dateString s' = App.dateString s ->
  App.useSameDateForAll s' = App.useSameDateForAll s ->
  renameOne s' rf = renameOne s rf.
Proof. intros Hf Hc Hd Hu. unfold renameOne. by rewrite Hf, Hc, Hd, Hu. Qed.

(** X8: a selection of at least one file appends one entry per selected
    file, in order: the entry holds the file, it has a preview URL exactly
    when the file's type starts with [image/], and its date is the global
    date in global mode and the date of the file itself in per-file mode.
    The entries already there keep their files, dates and previews, and
    every entry, old or new, ends with the generated name. *)
Theorem X8_entries_for_a_selection (w w' : Session) (firstFile : File.t)
    (rest : list File.t) :
  step (FilesSelected (Some (firstFile :: rest))) w = Some w' ->
  exists added,
    App.renamedFiles (state w')
    = map (renameOne (state w')) (App.renamedFiles (state w) ++ added)
    /\ Forall2 (fun f rf =>
                  originalFile rf = f
                  /\ (is_Some (previewUrl rf)
                      <-> startsWith (File.type f) (js "image/") = true)
                  /\ (if App.useSameDateForAll (state w')
                      then dateString rf = App.dateString (state w')
                      else toISODate (File.lastModified f) = Some (dateString rf)))
               (firstFile :: rest) added
    /\ App.useSameDateForAll (state w') = App.useSameDateForAll (state w)
    /\ App.format (state w') = App.format (state w)
    /\ App.codename (state w') = App.codename (state w).
Proof.
  intros Hstep. apply step_state in Hstep as ([[next b] r] & Hh & Hw').
  cbn [handle] in Hh. unfold handleFiles in Hh.
  destruct (if (length (App.renamedFiles (state w)) =? 0)%nat then _ else _)
    as [[d s1]|] eqn:E1; cbn [mbind option_bind] in Hh; [|done].
  assert (Hs1 : App.renamedFiles s1 = App.renamedFiles (state w)
                /\ App.useSameDateForAll s1 = App.useSameDateForAll (state w)
                /\ App.format s1 = App.format (state w)
                /\ App.codename s1 = App.codename (state w)
                /\ App.dateString s1 = d).
  { destruct (length (App.renamedFiles (state w)) =? 0)%nat.
    - destruct (toISODate (File.lastModified firstFile)); [|done].
      by injection E1 as <- <-.
    - by injection E1 as <- <-. }
  destruct Hs1 as (Hl1 & Hu1 & Hf1 & Hc1 & Hd1).
  destruct (filesToAdd (App.useSameDateForAll (state w)) d (firstFile :: rest) (browser w))
    as [[added b1]|] eqn:E2; cbn [mbind option_bind] in Hh; [|done].
  injection Hh as <- <- <-.
  pose proof (filesToAdd_length _ _ _ _ _ _ E2) as Hlen.
  destruct (state_after_commit (state w)
              (App.setRenamedFiles (App.renamedFiles s1 ++ added) s1) b1 true)
    as (Hf & Hc & Hd & Hu & _).
  rewrite <- Hw' in Hf, Hc, Hd, Hu. cbn in Hf, Hc, Hd, Hu.
  exists added. split; [|split; [|by rewrite Hu, Hf, Hc, Hu1, Hf1, Hc1]].
  - rewrite Hw', commit_changed.
    + unfold renameEffect. cbn [App.setRenamedFiles App.renamedFiles].
      rewrite length_app, Hlen. cbn [length].
      replace (length (App.renamedFiles s1) + S (length rest) =? 0)%nat with false
        by (symmetry; apply Nat.eqb_neq; lia).
      cbn [App.renamedFiles]. rewrite Hl1. apply map_ext. intros rf.
      symmetry. apply renameOne_ext; cbn; congruence.
    + unfold renameDeps. cbn [App.setRenamedFiles App.renamedFiles].
      rewrite Hl1, length_app, Hlen. cbn [length]. intros [=]. lia.
    + cbn. intros Hn. apply (f_equal length) in Hn. rewrite length_app, Hlen in Hn.
      cbn in Hn. lia.
  - rewrite Hu, Hd, Hu1, Hd1. by eapply filesToAdd_entries.
Qed.

Lemma X8_entries_for_a_selection_witness :
  exists w',
    step (FilesSelected (Some [photo; notes])) (initialSession (js "2026-11-03")) = Some w'
    /\ map previewUrl (App.renamedFiles (state w')) = [Some 0; None]
    /\ map dateString (App.renamedFiles (state w')) = [js "2024-03-05"; js "2024-03-05"].
Proof.
  destruct (step (FilesSelected (Some [photo; notes])) (initialSession (js "2026-11-03")))
    as [w'|] eqn:E; [|vm_compute in E; discriminate].
  destruct (X8_entries_for_a_selection _ _ _ _ E) as (added & _).
  exists w'. split; [reflexivity|].
  vm_compute in E. injection E as <-. by vm_compute.
Defined.

(** ** Preview URLs are not shared *)

Lemma filesToAdd_previews u d files b added b' :
  filesToAdd u d files b = Some (added, b') ->
  exists k, createdUrls b' = createdUrls b + k
            /\ previews added = seq (createdUrls b) k.
Proof.
  revert b added b'. induction files as [|f files IH]; intros b added b'.
  - intros [= <- <-]. exists 0. by rewrite Nat.add_0_r.
  - cbn [filesToAdd]. destruct (toISODate (File.lastModified f)) as [x|]; [|done].
    cbn [mbind option_bind].
    destruct (startsWith (File.type f) (js "image/")); cbn [createObjectURL].
    + destruct (filesToAdd u d files _) as [[added' b2]|] eqn:E'; [|done].
      cbn [mbind option_bind]. intros [= <- <-].
      destruct (IH _ _ _ E') as (k & H1 & H2). cbn in H1, H2.
      exists (S k). split; [lia|]. unfold previews in *. cbn. by rewrite H2.
    + destruct (filesToAdd u d files b) as [[added' b2]|] eqn:E'; [|done].
      cbn [mbind option_bind]. intros [= <- <-].
      destruct (IH _ _ _ E') as (k & H1 & H2). by exists k.
Qed.

Lemma step_createdUrls e w w' h :
  step e w = Some w' -> handle e (state w) (browser w) = Some h ->
  createdUrls h.1.2 <= createdUrls (browser w').
Proof.
  intros Hstep Hh. apply step_inv in Hstep as (h' & Hh' & _ & Hb).
  rewrite Hh in Hh'. injection Hh' as <-. destruct h as [[next b1] r].
  destruct (commit_browser (state w) next b1 r) as (Hc & _). cbn [fst snd].
  revert Hc Hb. generalize (commit (state w) (next, b1, r)).2.
  intros bc Hc [-> | ->]; [lia|].
  unfold fireDownload, createObjectURL, revokeObjectURL. cbn. lia.
Qed.

Lemma step_distinct_previews e w w' :
  NoDup (previews (App.renamedFiles (state w))) ->
  Forall (fun u => u < createdUrls (browser w)) (previews (App.renamedFiles (state w))) ->
  step e w = Some w' ->
  NoDup (previews (App.renamedFiles (state w')))
  /\ Forall (fun u => u < createdUrls (browser w')) (previews (App.renamedFiles (state w'))).
Proof.
  intros Hn Hb Hstep.
  destruct (step_state _ _ _ Hstep) as ([[next b1] r] & Hh & Hw').
  pose proof (step_createdUrls _ _ _ _ Hstep Hh) as Hc. cbn in Hc.
  rewrite Hw', (sameFiles_previews _ _ (commit_sameFiles _ _ _ _)).
  apply handle_entries in Hh
    as [[Hsf ->] | [(newFiles & added & Hadd & Hl) | [Hl ->]]].
  - rewrite (sameFiles_previews _ _ Hsf). split; [done|].
    eapply Forall_impl; [exact Hb|]. intros u Hu. simpl in Hu. lia.
  - rewrite Hl, previews_app.
    apply filesToAdd_previews in Hadd as (k & Hk & ->). split.
    + apply NoDup_app. split; [done|]. split; [|apply NoDup_seq].
      intros u Hu Hu'. rewrite Forall_forall in Hb. specialize (Hb u Hu).
      apply list_elem_of_In, in_seq in Hu'. lia.
    + apply Forall_app. split.
      * eapply Forall_impl; [exact Hb|]. intros u Hu. simpl in Hu. lia.
      * apply Forall_forall. intros u Hu. apply list_elem_of_In, in_seq in Hu. lia.
  - rewrite Hl. split; constructor.
Qed.

(** X9: in every reachable session the preview URLs held by the entries
    are pairwise distinct, and each of them was created by the browser
    before: no two entries share a preview, and none is made up. *)
Theorem X9_previews_distinct (w : Session) :
  reachable w ->
  NoDup (previews (App.renamedFiles (state w)))
  /\ Forall (fun u => u < createdUrls (browser w)) (previews (App.renamedFiles (state w))).
Proof.
  intros (today & es & Hrun).
  assert (H : forall w0,
    NoDup (previews (App.renamedFiles (state w0))) ->
    Forall (fun u => u < createdUrls (browser w0)) (previews (App.renamedFiles (state w0))) ->
    run es w0 = Some w ->
    NoDup (previews (App.renamedFiles (state w)))
    /\ Forall (fun u => u < createdUrls (browser w)) (previews (App.renamedFiles (state w)))).
  { clear Hrun. induction es as [|e es IH]; intros w0 Hn Hb; [by intros [= <-]|].
    cbn [run]. destruct (step e w0) as [w1|] eqn:E; [|done]. cbn [mbind option_bind].
    destruct (step_distinct_previews _ _ _ Hn Hb E). by apply IH. }
  apply (H (initialSession today)); [constructor|constructor|done].
Qed.

Lemma X9_previews_distinct_witness :
  NoDup (previews (App.renamedFiles (state sampleSession)))
  /\ previews (App.renamedFiles (state sampleSession)) = [0].
Proof.
  split; [|reflexivity].
  exact (proj1 (X9_previews_distinct sampleSession reachable_sampleSession)).
Defined.

(** ** Release of the preview URLs *)

Lemma noLostUrl_released (w : Session) :
  noLostUrl w ->
  (exists w', step ClearClicked w = Some w'
      /\ App.renamedFiles (state w') = []
      /\ forall u, u < createdUrls (browser w') -> u ∈ revokedUrls (browser w'))
  /\ (forall u, u < createdUrls (unmount w) -> u ∈ revokedUrls (unmount w)).
Proof.
  intros HJ. split.
  - destruct (step_Some_of_handle ClearClicked w _ eq_refl) as [w' Hw'].
    exists w'. split; [done|].
    pose proof (step_noLostUrl _ _ _ HJ Hw') as HJ'.
    apply step_state in Hw' as (h & Hh & Hs). injection Hh as <-.
    assert (He : App.renamedFiles (state w') = []).
    { rewrite Hs. apply nil_length_inv.
      by rewrite (sameFiles_length _ _ (commit_sameFiles _ _ _ _)). }
    split; [done|]. intros u Hu. destruct (HJ' u Hu) as [?|Hp]; [done|].
    rewrite He in Hp. by apply elem_of_nil in Hp.
  - unfold unmount. intros u Hu. rewrite cleanup_createdUrls in Hu.
    apply cleanup_revokedUrls. by apply HJ.
Qed.

Lemma stepOrThrow_step e w w' : step e w = Some w' -> stepOrThrow e w = Some w'.
Proof. unfold stepOrThrow. by intros ->. Qed.

Lemma runOrThrow_run es w w' : run es w = Some w' -> runOrThrow es w = Some w'.
Proof.
  revert w. induction es as [|e es IH]; intros w; [done|].
  cbn [run runOrThrow]. destruct (step e w) as [w1|] eqn:E; [|done].
  rewrite (stepOrThrow_step _ _ _ E). cbn [mbind option_bind]. apply IH.
Qed.

(** X10: as long as no handler throws, no object URL is lost.  On the
    first render, and after every event whose handler returns, each URL
    the browser created so far (previews and the transient URLs of the
    downloads) was revoked or is the preview of an entry; so this holds
    after every run of events from the first render in which all handlers
    returned, and from any such session a clear, and the unmounting of
    the component, leave every created URL revoked. *)
Theorem X10_object_urls_released (w : Session) :
  (forall today, noLostUrl (initialSession today))
  /\ (forall e w', noLostUrl w -> step e w = Some w' -> noLostUrl w')
  /\ (forall today es,
        run es (initialSession today) = Some w ->
        runOrThrow es (initialSession today) = Some w /\ noLostUrl w)
  /\ (noLostUrl w ->
      (exists w', step ClearClicked w = Some w'
          /\ forall u, u < createdUrls (browser w') -> u ∈ revokedUrls (browser w'))
      /\ (forall u, u < createdUrls (unmount w) -> u ∈ revokedUrls (unmount w))).
Proof.
  split; [|split; [|split]].
  - intros today u Hu. cbn in Hu. lia.
  - intros e w' HJ Hstep. by eapply step_noLostUrl.
  - intros today es Hrun. split; [by apply runOrThrow_run|].
    apply reachable_noLostUrl. by exists today, es.
  - intros HJ. destruct (noLostUrl_released w HJ) as [(w' & H1 & _ & H2) H3].
    split; [by exists w'|exact H3].
Qed.

Lemma X10_object_urls_released_witness :
  exists w',
    step ClearClicked sampleSession = Some w'
    /\ createdUrls (browser w') = 1
    /\ 0 ∈ revokedUrls (browser w')
    /\ 0 ∈ revokedUrls (unmount sampleSession).
Proof.
  assert (HJ : noLostUrl sampleSession).
  { apply (proj1 (proj2 (proj2 (X10_object_urls_released sampleSession)))
             (js "2026-11-03") [FilesSelected (Some [photo; notes])]).
    vm_compute. reflexivity. }
  destruct (proj2 (proj2 (proj2 (X10_object_urls_released sampleSession))) HJ)
    as [(w' & Hstep & Hall) Hun].
  exists w'. split; [exact Hstep|].
  assert (Hc : createdUrls (browser w') = 1).
  { vm_compute in Hstep. by injection Hstep as <-. }
  split; [exact Hc|]. split.
  - apply Hall. rewrite Hc. lia.
  - apply Hun. vm_compute. lia.
Defined.

Lemma commit_revokes_all prev next b r :
  (r = true /\ previews (App.renamedFiles next) = previews (App.renamedFiles prev))
  \/ (renameDeps prev <> renameDeps next /\ App.renamedFiles next <> [])
  \/ App.renamedFiles next = [] ->
  forall u, u ∈ previews (App.renamedFiles next) ->
            u ∈ revokedUrls (commit prev (next, b, r)).2.
Proof.
  intros H u Hu. unfold commit.
  destruct (decide (renameDeps prev = renameDeps next)) as [Heq|Hne].
  - cbn. destruct H as [[-> Hp]|[[Hd _]|Hnil]].
    + apply cleanup_revokedUrls. right. by rewrite <- Hp.
    + done.
    + rewrite Hnil in Hu. by apply elem_of_nil in Hu.
  - destruct (length (App.renamedFiles next) =? 0)%nat eqn:E.
    + apply Nat.eqb_eq, nil_length_inv in E. rewrite E in Hu. by apply elem_of_nil in Hu.
    + cbn. apply cleanup_revokedUrls. by right.
Qed.

(** X11: whenever an event makes [renamedFiles] a new array (a selection
    of files, an edit of one entry, the date toggle, a clear, or a change
    of rule, codename or global date on a collection that is not empty),
    the clean-up of the first effect has revoked every preview URL that
    the entries of the resulting collection hold. *)
Theorem X11_previews_revoked_on_replacement (e : event) (w w' : Session) :
  step e w = Some w' -> replacesArray e (state w) ->
  forall u, u ∈ previews (App.renamedFiles (state w')) -> u ∈ revokedUrls (browser w').
Proof.
  intros Hstep He u Hu.
  destruct (step_inv _ _ _ Hstep) as ([[next b1] r] & Hh & Hw' & Hb).
  assert (Hbw : browser w' = (commit (state w) (next, b1, r)).2).
  { clear Hb. unfold step in Hstep. rewrite Hh in Hstep.
    cbn [mbind option_bind] in Hstep.
    destruct (commit (state w) (next, b1, r)) as [s' b'] eqn:Ec.
    destruct e as [?|? ?|? ?|?|?|?|?| | |k]; try (by injection Hstep as <-).
    by cbn in He. }
  rewrite Hbw. rewrite Hw', (sameFiles_previews _ _ (commit_sameFiles _ _ _ _)) in Hu.
  apply commit_revokes_all; [|done].
  pose proof (handle_filesAfter _ _ _ _ _ _ Hh) as Hfiles.
  destruct e as [[[|f rest]|]|index v|index v|isChecked|v|v|v| | |k]; cbn [handle] in Hh;
    cbn [replacesArray] in He; try done.
  - right; left. cbn [filesAfter] in Hfiles.
    apply (f_equal length) in Hfiles. rewrite length_app, !length_map in Hfiles.
    cbn in Hfiles. split.
    + unfold renameDeps. intros [=]. lia.
    + intros Hn. rewrite Hn in Hfiles. cbn in Hfiles. lia.
  - left. unfold handleIndividualNameChange in Hh.
    destruct (updateAt _ _ _) as [updated|] eqn:E; [|done]. injection Hh as <- _ <-.
    split; [done|]. apply sameFiles_previews. by eapply sameFiles_updateAt in E.
  - left. unfold handleIndividualDateChange in Hh.
    destruct (updateAt _ _ _) as [updated|] eqn:E; [|done]. injection Hh as <- _ <-.
    split; [done|]. apply sameFiles_previews. by eapply sameFiles_updateAt in E.
  - left. unfold handleDateToggleChange in Hh.
    destruct (mapM _ _) as [updated|] eqn:E; [|done]. injection Hh as <- _ <-.
    split; [done|]. apply sameFiles_previews. by apply mapM_toggledDate in E as [? _].
  - right; left. injection Hh as <- _ _. destruct He as [Hv Hn]. split; [|done].
    unfold renameDeps. cbn. intros [=]. by apply Hv.
  - right; left. injection Hh as <- _ _. destruct He as [Hv Hn]. split; [|done].
    unfold renameDeps. cbn. intros [=]. by apply Hv.
  - right; left. injection Hh as <- _ _. destruct He as [Hv Hn]. split; [|done].
    unfold renameDeps. cbn. intros [=]. by apply Hv.
  - right; right. unfold handleClear in Hh. by injection Hh as <- _ _.
Qed.

Lemma X11_previews_revoked_on_replacement_witness :
  exists w',
    step (CodenameChanged (js "V2")) sampleSession = Some w'
    /\ previews (App.renamedFiles (state w')) = [0]
    /\ 0 ∈ revokedUrls (browser w').
Proof.
  destruct (step (CodenameChanged (js "V2")) sampleSession) as [w'|] eqn:E;
    [|vm_compute in E; discriminate].
  assert (Hp : previews (App.renamedFiles (state w')) = [0]).
  { vm_compute in E. by injection E as <-. }
  exists w'. split; [reflexivity|]. split; [exact Hp|].
  apply (X11_previews_revoked_on_replacement _ _ _ E).
  - split; vm_compute; discriminate.
  - rewrite Hp. apply list_elem_of_here.
Defined.

(** ** Export *)

Lemma saveAllFrom_all_eligible (k : nat) (l : list RenamedFile) :
  Forall eligible l ->
  saveAllFrom k l = imap (fun i rf => ((k + i) * 300, downloadOf rf)) l.
Proof.
  intros H. revert k. induction H as [|rf l Hrf _ IH]; intros k; [done|].
  cbn [saveAllFrom]. rewrite imap_cons. unfold eligible in Hrf.
  destruct (trim (newName rf)) as [|c t] eqn:E; [done|].
  rewrite Nat.add_0_r. f_equal.
  - unfold downloadOf. by rewrite E.
  - rewrite IH. apply imap_ext. intros i x _. cbn. do 2 f_equal. lia.
Qed.

Lemma synced_eligible s : synced s -> Forall eligible (App.renamedFiles s).
Proof.
  unfold synced. intros Hs. rewrite <- Hs. apply Forall_forall. intros rf' Hin.
  apply list_elem_of_In, in_map_iff in Hin as (rf & <- & _).
  unfold eligible, renameOne. simpl. apply trim_generatedName.
Qed.

(** X12: when every entry carries the generated name (as after any
    sweep), the export skips nothing: it sets one timer per entry, the
    entry at position i at i * 300 ms, so the delays are 0, 300, 600 and
    so on without a gap. *)
Theorem X12_export_after_sweep (s : App.state) :
  synced s ->
  handleSaveAll (App.renamedFiles s)
  = imap (fun i rf => (i * 300, downloadOf rf)) (App.renamedFiles s)
  /\ map fst (handleSaveAll (App.renamedFiles s))
     = map (fun i => i * 300) (seq 0 (length (App.renamedFiles s))).
Proof.
  intros Hs. apply synced_eligible in Hs.
  assert (H : handleSaveAll (App.renamedFiles s)
              = imap (fun i rf => (i * 300, downloadOf rf)) (App.renamedFiles s)).
  { unfold handleSaveAll. by rewrite saveAllFrom_all_eligible. }
  split; [exact H|]. rewrite H. clear.
  generalize (App.renamedFiles s). intros l.
  assert (G : forall k, map fst (imap (fun i rf => ((k + i) * 300, downloadOf rf)) l)
                        = map (fun i => i * 300) (seq k (length l))).
  { induction l as [|rf l IH]; intros k; [done|].
    rewrite imap_cons. cbn [map length seq fst]. rewrite Nat.add_0_r. f_equal.
    rewrite <- IH. f_equal. apply imap_ext. intros i x _. cbn. do 2 f_equal. lia. }
  apply (G 0).
Qed.

Lemma X12_export_after_sweep_witness :
  map fst (handleSaveAll (App.renamedFiles (state sampleSession))) = [0; 300].
Proof.
  assert (Hs : synced (state sampleSession)) by (vm_compute; reflexivity).
  rewrite (proj2 (X12_export_after_sweep _ Hs)). reflexivity.
Defined.





(** ** Clearing and starting over *)

Lemma step_ClearClicked w :
  exists w', step ClearClicked w = Some w'
             /\ App.renamedFiles (state w') = []
             /\ App.format (state w') = App.format (state w)
             /\ App.codename (state w') = App.codename (state w)
             /\ App.dateString (state w') = App.dateString (state w)
             /\ App.useSameDateForAll (state w') = App.useSameDateForAll (state w).
Proof.
  destruct (step_Some_of_handle ClearClicked w _ eq_refl) as [w' Hw'].
  exists w'. split; [done|].
  apply step_state in Hw' as (h & Hh & Hs). injection Hh as <-.
  destruct (state_after_commit (state w) (App.setRenamedFiles [] (state w)) (browser w) true)
    as (Hf & Hc & Hd & Hu & _).
  rewrite <- Hs in Hf, Hc, Hd, Hu. split; [|by auto].
  rewrite Hs. apply nil_length_inv.
  by rewrite (sameFiles_length _ _ (commit_sameFiles _ _ _ _)).
Qed.

(** X14: the clear empties the collection and keeps the rule, the
    codename, the global date and the toggle; the next selection then
    sets the global date again from its first file, in per-file mode as
    well as in global mode, and the collection holds exactly the selected
    files. *)
Theorem X14_clear_then_select (w : Session) (firstFile : File.t) (rest : list File.t) :
  Forall validFile (firstFile :: rest) ->
  exists w1 w2 d,
    step ClearClicked w = Some w1
    /\ App.renamedFiles (state w1) = []
    /\ App.format (state w1) = App.format (state w)
    /\ App.codename (state w1) = App.codename (state w)
    /\ App.dateString (state w1) = App.dateString (state w)
    /\ App.useSameDateForAll (state w1) = App.useSameDateForAll (state w)
    /\ step (FilesSelected (Some (firstFile :: rest))) w1 = Some w2
    /\ toISODate (File.lastModified firstFile) = Some d
    /\ App.dateString (state w2) = d
    /\ App.useSameDateForAll (state w2) = App.useSameDateForAll (state w)
    /\ map originalFile (App.renamedFiles (state w2)) = firstFile :: rest.
Proof.
  intros Hv.
  destruct (step_ClearClicked w) as (w1 & H1 & Hl & Hf & Hc & Hd & Hu).
  destruct (toISODate_is_Some (File.lastModified firstFile)) as [d Hdate].
  { by apply Forall_cons in Hv as [? _]. }
  destruct (handleFiles_dateString_first firstFile rest (state w1) (browser w1) d Hl Hv Hdate)
    as (s2 & b2 & Hh & Hs2).
  destruct (step_Some_of_handle (FilesSelected (Some (firstFile :: rest))) w1 _ Hh)
    as [w2 H2].
  exists w1, w2, d. do 8 (split; [done|]).
  pose proof (step_filesAfter _ _ _ H2) as Hfiles. cbn [filesAfter] in Hfiles.
  rewrite Hl in Hfiles. cbn in Hfiles.
  apply step_state in H2 as (h & Hh' & Hw2). cbn [handle] in Hh'.
  rewrite Hh in Hh'. injection Hh' as <-.
  destruct (state_after_commit (state w1) s2 b2 true) as (_ & _ & Hd2 & Hu2 & _).
  rewrite <- Hw2 in Hd2, Hu2.
  split; [by rewrite Hd2|]. split; [|done].
  rewrite Hu2, <- Hu. clear -Hh.
  unfold handleFiles in Hh.
  destruct (if (length (App.renamedFiles (state w1)) =? 0)%nat then _ else _)
    as [[d' s1]|] eqn:E1; cbn [mbind option_bind] in Hh; [|done].
  assert (Hs1 : App.useSameDateForAll s1 = App.useSameDateForAll (state w1)).
  { destruct (length (App.renamedFiles (state w1)) =? 0)%nat.
    - destruct (toISODate (File.lastModified firstFile)); [|done].
      by injection E1 as <- <-.
    - by injection E1 as <- <-. }
  destruct (filesToAdd _ d' (firstFile :: rest) (browser w1)) as [[added b1]|];
    cbn [mbind option_bind] in Hh; [|done].
  by injection Hh as <- _.
Qed.

Lemma X14_clear_then_select_witness :
  exists w1 w2,
    step (DateToggleChanged false) sampleSession = Some w1
    /\ run [ClearClicked; FilesSelected (Some [notes; photo])] w1 = Some w2
    /\ App.useSameDateForAll (state w2) = false
    /\ App.dateString (state w2) = js "1970-01-01".
Proof.
  destruct (step (DateToggleChanged false) sampleSession) as [w1|] eqn:E1;
    [|vm_compute in E1; discriminate].
  assert (Hv : Forall validFile [notes; photo]) by (repeat constructor).
  destruct (X14_clear_then_select w1 notes [photo] Hv)
    as (wa & wb & d & Ha & _ & _ & _ & _ & Hu & Hb & Hd & Hds & Hu2 & _).
  exists w1, wb. split; [reflexivity|]. split.
  { cbn [run]. rewrite Ha. cbn [mbind option_bind]. rewrite Hb. reflexivity. }
  split.
  - rewrite Hu2. vm_compute in E1. by injection E1 as <-.
  - rewrite Hds. vm_compute in Hd. by injection Hd as <-.
Defined.

(** ** A selection that throws *)

Lemma browserAtThrow_browser files b b' :
  browserAtThrow files b = Some b' ->
  createdUrls b <= createdUrls b' /\ revokedUrls b' = revokedUrls b.
Proof.
  revert b. induction files as [|f files IH]; intros b; [done|].
  cbn [browserAtThrow]. destruct (toISODate (File.lastModified f)); [|by intros [= <-]].
  intros H. apply IH in H as [H1 H2].
  destruct (startsWith (File.type f) (js "image/")); cbn in H1, H2; [|done].
  split; [lia|done].
Qed.

Lemma filesToAdd_None_browserAtThrow u d files b :
  filesToAdd u d files b = None <-> is_Some (browserAtThrow files b).
Proof.
  revert b. induction files as [|f files IH]; intros b.
  - cbn. split; [done|by intros [? ?]].
  - cbn [filesToAdd browserAtThrow].
    destruct (toISODate (File.lastModified f)) as [x|]; cbn [mbind option_bind];
      [|split; [by eexists|done]].
    destruct (startsWith (File.type f) (js "image/")); cbn [createObjectURL snd].
    + rewrite <- IH. by destruct (filesToAdd u d files _) as [[? ?]|].
    + rewrite <- IH. by destruct (filesToAdd u d files b) as [[? ?]|].
Qed.

(** The handler either returns or throws, never both. *)
Lemma handleFiles_None_iff selected s b :
  handleFiles selected s b = None <-> is_Some (handleFilesThrown selected s b).
Proof.
  assert (G : forall u d files (k1 : list RenamedFile * Browser -> option handled)
                     (k2 : Browser -> option handled),
             (forall x, is_Some (k1 x)) -> (forall x, is_Some (k2 x)) ->
             (filesToAdd u d files b ≫= k1) = None
             <-> is_Some (browserAtThrow files b ≫= k2)).
  { intros u d files k1 k2 H1 H2.
    pose proof (filesToAdd_None_browserAtThrow u d files b) as Hiff.
    destruct (filesToAdd u d files b) as [x|]; destruct (browserAtThrow files b) as [y|];
      cbn [mbind option_bind].
    - assert (Hx : Some x = None) by (apply Hiff; by eexists). discriminate Hx.
    - split; [|by intros [? ?]]. intros Hk. destruct (H1 x) as [? Hx]. congruence.
    - split; [intros _; apply H2|done].
    - destruct (proj1 Hiff eq_refl) as [? Hx]. discriminate Hx. }
  unfold handleFiles, handleFilesThrown.
  destruct selected as [[|firstFile rest]|]; try (split; [done|by intros [? ?]]).
  destruct (length (App.renamedFiles s) =? 0)%nat.
  - destruct (toISODate (File.lastModified firstFile)) as [d|] eqn:Ed;
      cbn [mbind option_bind]; [|split; [by eexists|done]].
    apply G; [intros [? ?]|intros ?]; by eexists.
  - cbn [mbind option_bind]. apply G; [intros [? ?]|intros ?]; by eexists.
Qed.

Lemma handleFilesThrown_inv selected s b h :
  handleFilesThrown selected s b = Some h ->
  exists s' b', h = (s', b', false)
    /\ App.renamedFiles s' = App.renamedFiles s
    /\ createdUrls b <= createdUrls b' /\ revokedUrls b' = revokedUrls b
    /\ (s' = s \/ (App.renamedFiles s = []
                   /\ exists firstFile rest d,
                        selected = Some (firstFile :: rest)
                        /\ toISODate (File.lastModified firstFile) = Some d
                        /\ s' = App.setDateString d s)).
Proof.
  unfold handleFilesThrown.
  destruct selected as [[|firstFile rest]|]; try done.
  destruct (length (App.renamedFiles s) =? 0)%nat eqn:El.
  - destruct (toISODate (File.lastModified firstFile)) as [d|] eqn:Ed.
    + destruct (browserAtThrow (firstFile :: rest) b) as [b'|] eqn:Eb;
        cbn [mbind option_bind]; [|done].
      intros [= <-]. apply browserAtThrow_browser in Eb as [H1 H2].
      exists (App.setDateString d s), b'. do 4 (split; [done|]). right.
      split; [by apply Nat.eqb_eq, nil_length_inv in El|]. by exists firstFile, rest, d.
    + intros [= <-]. exists s, b. by auto 10.
  - destruct (browserAtThrow (firstFile :: rest) b) as [b'|] eqn:Eb;
      cbn [mbind option_bind]; [|done].
    intros [= <-]. apply browserAtThrow_browser in Eb as [H1 H2].
    exists s, b'. by auto 10.
Qed.

Lemma commit_no_sweep prev next b :
  next = prev \/ App.renamedFiles next = [] ->
  commit prev (next, b, false) = (next, b).
Proof.
  intros [-> | Hn]; [apply commit_unchanged|].
  unfold commit. case_decide; [done|]. by rewrite Hn.
Qed.

(** The session after an event: the one the handler returned, or the one
    a throwing selection left. *)
Lemma stepOrThrow_inv e w w' :
  stepOrThrow e w = Some w' ->
  step e w = Some w'
  \/ (step e w = None
      /\ exists selected s' b',
           e = FilesSelected selected
           /\ handleFilesThrown selected (state w) (browser w) = Some (s', b', false)
           /\ w' = mkSession s' b' (timers w) (saved w)).
Proof.
  unfold stepOrThrow. destruct (step e w) as [w1|] eqn:E; [by left|].
  destruct e as [selected|? ?|? ?|?|?|?|?| | |k]; try done.
  destruct (handleFilesThrown selected (state w) (browser w)) as [h|] eqn:Eh;
    cbn [mbind option_bind]; [|done].
  destruct (handleFilesThrown_inv _ _ _ _ Eh) as (s' & b' & -> & Hl & _ & _ & Hs).
  rewrite commit_no_sweep.
  - intros [= <-]. right. split; [done|]. by exists selected, s', b'.
  - destruct Hs as [->|[Hn _]]; [by left|]. right. by rewrite Hl.
Qed.

Lemma commit_revokedUrls_inv prev next b r u :
  u ∈ revokedUrls (commit prev (next, b, r)).2 ->
  u ∈ revokedUrls b \/ u ∈ previews (App.renamedFiles prev)
  \/ u ∈ previews (App.renamedFiles next).
Proof.
  unfold commit.
  assert (H1 : u ∈ revokedUrls (if r then cleanupObjectURLs (App.renamedFiles prev) b else b)
               -> u ∈ revokedUrls b \/ u ∈ previews (App.renamedFiles prev)).
  { destruct r; [apply cleanup_revokedUrls|by left]. }
  case_decide; [by intuition|].
  destruct (length (App.renamedFiles next) =? 0)%nat; [by intuition|].
  cbn [snd]. rewrite cleanup_revokedUrls. by intuition.
Qed.

(** What an event does to the URLs, whether its handler returns or
    throws: the previews of the entries are the old ones followed by fresh
    ones, URLs are only ever created, and what is newly revoked is an old
    preview or a fresh URL. *)
Lemma stepOrThrow_urls e w w' :
  stepOrThrow e w = Some w' ->
  createdUrls (browser w) <= createdUrls (browser w')
  /\ (forall u, u ∈ previews (App.renamedFiles (state w')) ->
                u ∈ previews (App.renamedFiles (state w))
                \/ createdUrls (browser w) <= u < createdUrls (browser w'))
  /\ (forall u, u ∈ revokedUrls (browser w') ->
                u ∈ revokedUrls (browser w)
                \/ u ∈ previews (App.renamedFiles (state w))
                \/ createdUrls (browser w) <= u < createdUrls (browser w')).
Proof.
  intros H. apply stepOrThrow_inv in H
    as [Hstep | (_ & selected & s' & b' & -> & Hh & ->)].
  - destruct (step_inv _ _ _ Hstep) as ([[next b1] r] & Hh & Hs & Hb).
    pose proof (commit_sameFiles (state w) next b1 r) as Hsame.
    apply sameFiles_previews in Hsame. rewrite <- Hs in Hsame.
    destruct (commit_browser (state w) next b1 r) as (Hc & _).
    assert (Hnext : createdUrls (browser w) <= createdUrls b1
                    /\ revokedUrls b1 = revokedUrls (browser w)
                    /\ forall u, u ∈ previews (App.renamedFiles next) ->
                         u ∈ previews (App.renamedFiles (state w))
                         \/ createdUrls (browser w) <= u < createdUrls b1).
    { apply handle_entries in Hh
        as [[Hsf ->] | [(newFiles & added & Hadd & Hl) | [Hl ->]]].
      - rewrite (sameFiles_previews _ _ Hsf). by auto.
      - rewrite Hl, previews_app.
        destruct (filesToAdd_browser _ _ _ _ _ _ Hadd) as (H1 & H2 & _).
        apply filesToAdd_previews in Hadd as (k & Hk & ->).
        do 2 (split; [done|]). intros u Hu. apply elem_of_app in Hu as [Hu|Hu]; [by left|].
        right. apply list_elem_of_In, in_seq in Hu. lia.
      - rewrite Hl. do 2 (split; [done|]). intros u Hu. by apply elem_of_nil in Hu. }
    destruct Hnext as (Hn1 & Hn2 & Hn3).
    assert (Hcommit : forall u, u ∈ revokedUrls (commit (state w) (next, b1, r)).2 ->
               u ∈ revokedUrls (browser w)
               \/ u ∈ previews (App.renamedFiles (state w))
               \/ createdUrls (browser w) <= u < createdUrls b1).
    { intros u Hu. apply commit_revokedUrls_inv in Hu as [Hu|[Hu|Hu]].
      - left. by rewrite <- Hn2.
      - by auto.
      - destruct (Hn3 u Hu); by auto. }
    revert Hc Hcommit Hb. generalize (commit (state w) (next, b1, r)).2.
    intros bc Hc Hcommit Hb.
    assert (Hcr : createdUrls bc <= createdUrls (browser w')).
    { destruct Hb as [-> | ->]; [done|].
      unfold fireDownload, createObjectURL, revokeObjectURL. cbn. lia. }
    split; [lia|]. split.
    + rewrite Hsame. intros u Hu. destruct (Hn3 u Hu); [by left|right; lia].
    + intros u Hu. destruct Hb as [Hb|Hb]; rewrite Hb in Hu.
      * destruct (Hcommit u Hu) as [?|[?|?]]; [by auto|by auto|right; right; lia].
      * unfold fireDownload, createObjectURL, revokeObjectURL in Hu, Hb. cbn in Hu.
        apply elem_of_union in Hu as [Hu|Hu].
        -- apply elem_of_singleton in Hu. rewrite Hb. cbn. right; right. lia.
        -- destruct (Hcommit u Hu) as [?|[?|?]]; [by auto|by auto|].
           right; right. rewrite Hb. cbn. lia.
  - destruct (handleFilesThrown_inv _ _ _ _ Hh) as (s1 & b1 & [= <- <-] & Hl & Hc & Hr & _).
    cbn [state browser]. rewrite Hl, Hr. by auto.
Qed.

Lemma stepOrThrow_urlsWellFormed e w w' :
  urlsWellFormed w -> stepOrThrow e w = Some w' -> urlsWellFormed w'.
Proof.
  intros [Hp Hr] H. destruct (stepOrThrow_urls _ _ _ H) as (Hc & Hp' & Hr').
  rewrite Forall_forall in Hp. split.
  - apply Forall_forall. intros u Hu. destruct (Hp' u Hu) as [Ho|?]; [|lia].
    specialize (Hp u Ho). lia.
  - intros u Hu. destruct (Hr' u Hu) as [Ho|[Ho|?]]; [| |lia].
    + specialize (Hr u Ho). lia.
    + specialize (Hp u Ho). lia.
Qed.

Lemma stepOrThrow_lostUrl e w w' u :
  lostUrl u w -> stepOrThrow e w = Some w' -> lostUrl u w'.
Proof.
  intros (Hu & Hnr & Hnp) H. destruct (stepOrThrow_urls _ _ _ H) as (Hc & Hp' & Hr').
  split; [lia|]. split.
  - intros Hin. destruct (Hr' u Hin) as [?|[?|?]]; [done|done|lia].
  - intros Hin. destruct (Hp' u Hin) as [?|?]; [done|lia].
Qed.

Lemma runOrThrow_lostUrl es w w' u :
  lostUrl u w -> runOrThrow es w = Some w' -> lostUrl u w'.
Proof.
  revert w. induction es as [|e es IH]; intros w Hl; [by intros [= <-]|].
  cbn [runOrThrow]. destruct (stepOrThrow e w) as [w1|] eqn:E; [|done].
  cbn [mbind option_bind]. apply IH. by eapply stepOrThrow_lostUrl.
Qed.

Lemma reachableOrThrow_urlsWellFormed w : reachableOrThrow w -> urlsWellFormed w.
Proof.
  intros (today & es & H).
  assert (G : forall w0, urlsWellFormed w0 -> runOrThrow es w0 = Some w -> urlsWellFormed w).
  { clear H. induction es as [|e es IH]; intros w0 H0; [by intros [= <-]|].
    cbn [runOrThrow]. destruct (stepOrThrow e w0) as [w1|] eqn:E; [|done].
    cbn [mbind option_bind]. apply IH. by eapply stepOrThrow_urlsWellFormed. }
  apply (G (initialSession today)); [|done]. split; [constructor|].
  intros u Hu. cbn in Hu. by apply not_elem_of_empty in Hu.
Qed.

(** After a selection the component always goes on: the handler returned
    or it threw. *)
Lemma stepOrThrow_selection_total selected w :
  is_Some (stepOrThrow (FilesSelected selected) w).
Proof.
  unfold stepOrThrow. destruct (step (FilesSelected selected) w) as [w'|] eqn:E;
    [by eexists|].
  assert (Hh : handleFiles selected (state w) (browser w) = None).
  { destruct (handleFiles selected (state w) (browser w)) as [h|] eqn:Eh; [|done].
    destruct (step_Some_of_handle (FilesSelected selected) w h Eh) as [? Hs]. congruence. }
  apply handleFiles_None_iff in Hh as [h Hh]. rewrite Hh. cbn [mbind option_bind].
  destruct (commit (state w) h). by eexists.
Qed.

(** X15: a selection that throws loses the object URLs it had created.
    When [handleFiles] throws on a file after image files, the URLs made
    for those images are the previews of no entry (no entry was added) and
    are not revoked; and nothing that happens afterwards revokes them:
    no later event, no clear, and not the unmounting of the component. *)
Theorem X15_thrown_selection_loses_urls (w w' : Session)
    (selected : option (list File.t)) :
  reachableOrThrow w ->
  step (FilesSelected selected) w = None ->
  stepOrThrow (FilesSelected selected) w = Some w' ->
  App.renamedFiles (state w') = App.renamedFiles (state w)
  /\ forall u, createdUrls (browser w) <= u < createdUrls (browser w') ->
       lostUrl u w'
       /\ forall es w'', runOrThrow es w' = Some w'' ->
            lostUrl u w'' /\ (u ∉ revokedUrls (unmount w'')).
Proof.
  intros Hr Hnone H. apply reachableOrThrow_urlsWellFormed in Hr as [Hp Hrv].
  destruct (stepOrThrow_inv _ _ _ H)
    as [Hstep | (_ & sel & s' & b' & [= <-] & Hh & ->)]; [congruence|].
  destruct (handleFilesThrown_inv _ _ _ _ Hh) as (s1 & b1 & [= <- <-] & Hl & Hc & Hrev & _).
  cbn [state browser]. split; [done|]. intros u Hu.
  assert (Hlost : lostUrl u (mkSession s' b' (timers w) (saved w))).
  { split; [cbn; lia|]. cbn [state browser]. rewrite Hrev, Hl. split.
    - intros Hin. specialize (Hrv u Hin). lia.
    - intros Hin. rewrite Forall_forall in Hp. specialize (Hp u Hin). lia. }
  split; [exact Hlost|]. intros es w'' Hrun.
  pose proof (runOrThrow_lostUrl _ _ _ _ Hlost Hrun) as (H1 & H2 & H3).
  split; [done|]. unfold unmount. rewrite cleanup_revokedUrls. by intros [?|?].
Qed.

Lemma X15_thrown_selection_loses_urls_witness :
  exists w' w'',
    step (FilesSelected (Some [photo; farFile])) (initialSession (js "2026-11-03")) = None
    /\ stepOrThrow (FilesSelected (Some [photo; farFile])) (initialSession (js "2026-11-03"))
       = Some w'
    /\ createdUrls (browser w') = 1
    /\ runOrThrow [FilesSelected (Some [notes]); ClearClicked] w' = Some w''
    /\ lostUrl 0 w'' /\ (0 ∉ revokedUrls (unmount w'')).
Proof.
  destruct (stepOrThrow (FilesSelected (Some [photo; farFile]))
              (initialSession (js "2026-11-03"))) as [w'|] eqn:E;
    [|vm_compute in E; discriminate].
  destruct (runOrThrow [FilesSelected (Some [notes]); ClearClicked] w') as [w''|] eqn:E2.
  2:{ vm_compute in E. injection E as <-. vm_compute in E2. discriminate. }
  assert (Hn : step (FilesSelected (Some [photo; farFile])) (initialSession (js "2026-11-03"))
               = None) by (vm_compute; reflexivity).
  assert (Hr : reachableOrThrow (initialSession (js "2026-11-03")))
    by (by exists (js "2026-11-03"), []).
  assert (Hc : createdUrls (browser w') = 1).
  { vm_compute in E. by injection E as <-. }
  destruct (X15_thrown_selection_loses_urls _ _ _ Hr Hn E) as [_ Hall].
  destruct (Hall 0) as [_ Hlater]. { rewrite Hc. cbn. lia. }
  destruct (Hlater _ _ E2) as [H1 H2].
  exists w', w''. split; [exact Hn|]. split; [reflexivity|]. split; [exact Hc|].
  split; [exact E2|]. split; [exact H1|exact H2].
Defined.

(** X16: a selection that throws adds no entry and changes neither the
    rule, the codename nor the toggle, and it schedules nothing; but on an
    empty collection whose first selected file is valid the global date
    has already been set from that file, and it stays set. *)
Theorem X16_thrown_selection_state (w w' : Session) (selected : option (list File.t)) :
  step (FilesSelected selected) w = None ->
  stepOrThrow (FilesSelected selected) w = Some w' ->
  App.renamedFiles (state w') = App.renamedFiles (state w)
  /\ App.format (state w') = App.format (state w)
  /\ App.codename (state w') = App.codename (state w)
  /\ App.useSameDateForAll (state w') = App.useSameDateForAll (state w)
  /\ timers w' = timers w /\ saved w' = saved w
  /\ (App.renamedFiles (state w) <> [] -> state w' = state w)
  /\ (forall firstFile rest d,
        selected = Some (firstFile :: rest) ->
        App.renamedFiles (state w) = [] ->
        toISODate (File.lastModified firstFile) = Some d ->
        App.dateString (state w') = d).
Proof.
  intros Hnone H.
  destruct (stepOrThrow_inv _ _ _ H)
    as [Hstep | (_ & sel & s' & b' & [= <-] & Hh & ->)]; [congruence|].
  cbn [state timers saved].
  pose proof Hh as Hh'. unfold handleFilesThrown in Hh'.
  destruct (handleFilesThrown_inv _ _ _ _ Hh) as (s1 & b1 & [= <- <-] & Hl & _ & _ & Hs).
  split; [done|].
  assert (Hcells : App.format s' = App.format (state w)
                   /\ App.codename s' = App.codename (state w)
                   /\ App.useSameDateForAll s' = App.useSameDateForAll (state w)).
  { destruct Hs as [->|(_ & f & r & d & _ & _ & ->)]; done. }
  destruct Hcells as (Hf & Hc & Hu). do 5 (split; [done|]). split.
  - intros Hne. destruct Hs as [->|(Hn & _)]; done.
  - intros firstFile rest d -> Hn Hd. rewrite Hn, Hd in Hh'.
    cbn [length Nat.eqb mbind option_bind] in Hh'.
    destruct (browserAtThrow (firstFile :: rest) (browser w));
      cbn [mbind option_bind] in Hh'; [|done].
    by simplify_eq.
Qed.

Lemma X16_thrown_selection_state_witness :
  exists w',
    stepOrThrow (FilesSelected (Some [photo; farFile])) (initialSession (js "2026-11-03"))
    = Some w'
    /\ App.renamedFiles (state w') = []
    /\ App.dateString (state w') = js "2024-03-05".
Proof.
  destruct (stepOrThrow (FilesSelected (Some [photo; farFile]))
              (initialSession (js "2026-11-03"))) as [w'|] eqn:E;
    [|vm_compute in E; discriminate].
  assert (Hn : step (FilesSelected (Some [photo; farFile])) (initialSession (js "2026-11-03"))
               = None) by (vm_compute; reflexivity).
  destruct (X16_thrown_selection_state _ _ _ Hn E) as (Hl & _ & _ & _ & _ & _ & _ & Hd).
  exists w'. split; [reflexivity|]. split; [by rewrite Hl|].
  apply (Hd photo [farFile]); [reflexivity|reflexivity|]. vm_compute. reflexivity.
Defined.
